(** * Anvaya CRM API: the domain operations and route handlers of [server.js]

    A shallow embedding of the request handlers of [src/server.js].  Every
    [async] operation of the source becomes a computation in a small state and
    exception monad over a [World]: the four collections of the document
    store, the log of the calls made to the store, the clock and the counter
    that hands out identifiers.  [try { ... } catch (error) { ... }] is
    [try_catch]; [throw] is [throw].

    What the source takes from outside is gathered in a [Driver]: the
    identifier check of the ODM ([mongoose.Types.ObjectId.isValid]), its casts
    of a value to an identifier, a number and a date, the failures the
    persistence layer may raise at a call, the query matcher of the store,
    the validators of the four schemas ([./models/*.model], which are not
    part of [src/]) and the time zone of the host. *)

From Stdlib Require Import ZArith List String Ascii Bool Lia.
From Stdlib Require Import DecimalString.
Import ListNotations.
Open Scope string_scope.
Open Scope Z_scope.

Set Implicit Arguments.

(* ------------------------------------------------------------------ *)
(** ** JavaScript values *)

(** The values a JSON body, a query string or a route parameter can carry in
    the handlers: [undefined] for an absent property, [null], booleans,
    integers (also the epoch milliseconds of a [Date]), strings and arrays. *)
#[warnings="-register-all"]
Inductive jsval : Type :=
| VUndef
| VNull
| VBool (b : bool)
| VNum (z : Z)
| VStr (s : string)
| VArr (l : list jsval).

(** [if (v)]: JavaScript truthiness. *)
Definition truthy (v : jsval) : bool :=
  match v with
  | VUndef | VNull => false
  | VBool b => b
  | VNum z => negb (z =? 0)
  | VStr s => negb (s =? "")%string
  | VArr _ => true
  end.

(** [v === 'lit']: strict equality with a string literal. *)
Definition is_str (v : jsval) (lit : string) : bool :=
  match v with
  | VStr s => (s =? lit)%string
  | _ => false
  end.

(** [arr.includes(v)] for an array literal of strings. *)
Definition includes (arr : list string) (v : jsval) : bool :=
  existsb (is_str v) arr.

Definition Z_to_string (z : Z) : string :=
  NilZero.string_of_int (Z.to_int z).

(** [`${v}`]: the string a template literal interpolates. *)
Fixpoint js_to_string (v : jsval) : string :=
  match v with
  | VUndef => "undefined"
  | VNull => "null"
  | VBool true => "true"
  | VBool false => "false"
  | VNum z => Z_to_string z
  | VStr s => s
  | VArr l =>
      (fix join (xs : list jsval) : string :=
         match xs with
         | [] => ""
         | x :: rest =>
             let here := match x with
                         | VUndef | VNull => ""
                         | _ => js_to_string x
                         end in
             match rest with
             | [] => here
             | _ :: _ => here ++ "," ++ join rest
             end
         end) l
  end.

Fixpoint jsval_eqb (a b : jsval) : bool :=
  match a, b with
  | VUndef, VUndef => true
  | VNull, VNull => true
  | VBool x, VBool y => Bool.eqb x y
  | VNum x, VNum y => (x =? y)
  | VStr x, VStr y => (x =? y)%string
  | VArr xs, VArr ys =>
      (fix go (xs ys : list jsval) : bool :=
         match xs, ys with
         | [], [] => true
         | x :: xs', y :: ys' => jsval_eqb x y && go xs' ys'
         | _, _ => false
         end) xs ys
  | _, _ => false
  end.

(** A plain object ([req.body], [req.query]) as its properties in order; the
    first binding of a key is the one a property read sees. *)
Definition Obj : Type := list (string * jsval).

Fixpoint assoc (k : string) (o : Obj) : option jsval :=
  match o with
  | [] => None
  | (k', v) :: rest => if (k =? k')%string then Some v else assoc k rest
  end.

(** [o.k], [undefined] when the property is absent. *)
Definition get (k : string) (o : Obj) : jsval :=
  match assoc k o with
  | Some v => v
  | None => VUndef
  end.

(** [errors.join('. ')] *)
Fixpoint join_with (sep : string) (l : list string) : string :=
  match l with
  | [] => ""
  | [x] => x
  | x :: rest => x ++ sep ++ join_with sep rest
  end.

(* ------------------------------------------------------------------ *)
(** ** Thrown values *)

(** An error raised by the persistence layer: [error.name], [error.code],
    [error.message] and, for a [ValidationError], the messages of
    [Object.values(error.errors)]. *)
Record LibErr : Type := mkLibErr {
  e_name : string;
  e_code : option Z;
  e_message : string;
  e_errors : list string
}.

(** What a [throw] carries: one of the tagged literals [{type, message}] of
    the operations, or an error of the persistence layer. *)
Inductive thrown : Type :=
| Tagged (type : string) (message : string)
| Lib (e : LibErr).

(** [error.name === n] *)
Definition name_is (e : thrown) (n : string) : bool :=
  match e with
  | Tagged _ _ => false
  | Lib l => (e_name l =? n)%string
  end.

(** [error.code === c] *)
Definition code_is (e : thrown) (c : Z) : bool :=
  match e with
  | Tagged _ _ => false
  | Lib l => match e_code l with Some c' => (c' =? c) | None => false end
  end.

(** [error.type], [undefined] ([None]) on an error of the persistence layer. *)
Definition type_of (e : thrown) : option string :=
  match e with
  | Tagged t _ => Some t
  | Lib _ => None
  end.

(** [error.message] *)
Definition message_of (e : thrown) : string :=
  match e with
  | Tagged _ m => m
  | Lib l => e_message l
  end.

(** [Object.values(error.errors).map(err => err.message)] *)
Definition errors_of (e : thrown) : list string :=
  match e with
  | Tagged _ _ => []
  | Lib l => e_errors l
  end.

Definition ValidationError (msgs : list string) : LibErr :=
  mkLibErr "ValidationError" None "Validation failed" msgs.

Definition DuplicateKeyError : LibErr :=
  mkLibErr "MongoServerError" (Some 11000) "E11000 duplicate key error" [].

Definition CastError : LibErr :=
  mkLibErr "CastError" None "Cast failed" [].

(* ------------------------------------------------------------------ *)
(** ** Documents and the store *)

Definition Id : Type := string.

Record Lead : Type := mkLead {
  lead_id : Id;
  lead_name : jsval;
  lead_source : jsval;
  lead_salesAgent : jsval;
  lead_status : jsval;
  lead_tags : jsval;
  lead_timeToClose : jsval;
  lead_priority : jsval;
  lead_closedAt : jsval
}.

Record SalesAgent : Type := mkAgent {
  agent_id : Id;
  agent_name : jsval;
  agent_email : jsval
}.

Record Comment : Type := mkComment {
  comment_id : Id;
  comment_lead : jsval;
  comment_commentText : jsval;
  comment_author : jsval;
  comment_createdAt : Z
}.

Record Tag : Type := mkTag {
  tag_id : Id;
  tag_name : jsval
}.

(** A lead as [.populate('salesAgent', 'name')] returns it: the reference
    resolved to the identifier and name of the agent, [None] when it resolves
    to no record. *)
Record LeadView : Type := mkLeadView {
  lv_lead : Lead;
  lv_salesAgent : option (Id * jsval)
}.

(** A comment as [.populate('author')] returns it. *)
Record CommentView : Type := mkCommentView {
  cv_comment : Comment;
  cv_author : option SalesAgent
}.

(** One collection per entity, each in insertion order. *)
Record Db : Type := mkDb {
  leads : list Lead;
  agents : list SalesAgent;
  comments : list Comment;
  tags : list Tag
}.

(** The calls the operations make to the store, with their arguments. *)
Inductive Call : Type :=
| CSalesAgent_findById (id : jsval)
| CLead_save (doc : Lead)
| CLead_find_populate (query : Obj)
| CLead_findById (id : jsval)
| CLead_findByIdAndUpdate (id : jsval) (set : Obj)
| CLead_findByIdAndDelete (id : jsval)
| CSalesAgent_save (doc : SalesAgent)
| CSalesAgent_find
| CComment_save (doc : Comment)
| CComment_find_populate (lead : jsval)
| CLead_find_closedAt_gte (since : Z)
| CLead_find_status_ne (status : string)
| CTag_save (doc : Tag)
| CTag_find.

Definition is_write (c : Call) : bool :=
  match c with
  | CLead_save _ | CLead_findByIdAndUpdate _ _ | CLead_findByIdAndDelete _
  | CSalesAgent_save _ | CComment_save _ | CTag_save _ => true
  | _ => false
  end.

Record World : Type := mkWorld {
  db : Db;
  log : list Call;
  now : Z;
  next : nat
}.

(* ------------------------------------------------------------------ *)
(** ** The state and exception monad *)

Inductive Result (A : Type) : Type :=
| Ok (a : A)
| Throw (e : thrown).
Arguments Ok {A} a.
Arguments Throw {A} e.

Definition M (A : Type) : Type := World -> World * Result A.

Definition ret {A} (a : A) : M A := fun w => (w, Ok a).

Definition throw {A} (e : thrown) : M A := fun w => (w, Throw e).

Definition bind {A B} (m : M A) (k : A -> M B) : M B :=
  fun w =>
    match m w with
    | (w', Ok a) => k a w'
    | (w', Throw e) => (w', Throw e)
    end.

Definition try_catch {A} (m : M A) (handler : thrown -> M A) : M A :=
  fun w =>
    match m w with
    | (w', Ok a) => (w', Ok a)
    | (w', Throw e) => handler e w'
    end.

Declare Scope js_scope.
Delimit Scope js_scope with js.
Notation "x <- c1 ;; c2" := (bind c1 (fun x => c2))
  (at level 100, c1 at next level, right associativity) : js_scope.
Open Scope js_scope.

(** [Date.now()] and [new Date()]: the clock of the world, in epoch
    milliseconds. *)
Definition Date_now : M Z := fun w => (w, Ok (now w)).

(** The identifier a freshly constructed document receives. *)
Definition fresh (newId : nat -> Id) : M Id :=
  fun w => (mkWorld (db w) (log w) (now w) (S (next w)), Ok (newId (next w))).

(* ------------------------------------------------------------------ *)
(** ** What the handlers take from outside *)

(** The ODM, the persistence layer, the schemas and the host.  [fault c d] is
    the error the persistence layer raises at call [c] on the store [d], if
    any (a lost connection, a failed cast of a filter, ...); the validators
    give the messages of the violated paths, none when the document is
    accepted; [lead_update_errors] are the messages of the validators that
    [runValidators: true] runs on an update whose values could be cast.
    [cast_Number] and [cast_Date] are the ODM's casts of a value to a number
    and to a date, [None] when the value cannot be cast.  [LocalTZA t isUTC]
    is the offset of the host's time zone in milliseconds, at the instant [t]
    when [isUTC] holds and at the local time [t] otherwise. *)
Record Driver : Type := mkDriver {
  isValid : jsval -> bool;
  castId : jsval -> option Id;
  newId : nat -> Id;
  fault : Call -> Db -> option LibErr;
  lead_matches : Obj -> Lead -> bool;
  lead_errors : Lead -> list string;
  lead_update_errors : Obj -> list string;
  agent_errors : SalesAgent -> list string;
  comment_errors : Comment -> list string;
  tag_errors : Tag -> list string;
  cast_Number : jsval -> option jsval;
  cast_Date : jsval -> option jsval;
  LocalTZA : Z -> bool -> Z
}.

(** *** Field access by path name *)

(** Modelled from the spec: the paths of the Lead schema
    ([./models/lead.model], not part of src/): "name, source, salesAgent,
    status, tags, timeToClose, priority, closedAt". *)
Definition lead_paths : list string :=
  ["name"; "source"; "salesAgent"; "status"; "tags"; "timeToClose";
   "priority"; "closedAt"].

Definition lead_field (k : string) (l : Lead) : option jsval :=
  if (k =? "name")%string then Some (lead_name l)
  else if (k =? "source")%string then Some (lead_source l)
  else if (k =? "salesAgent")%string then Some (lead_salesAgent l)
  else if (k =? "status")%string then Some (lead_status l)
  else if (k =? "tags")%string then Some (lead_tags l)
  else if (k =? "timeToClose")%string then Some (lead_timeToClose l)
  else if (k =? "priority")%string then Some (lead_priority l)
  else if (k =? "closedAt")%string then Some (lead_closedAt l)
  else None.

(** [{$set: {k: v}}] on one path; a key that is no path of the schema is
    dropped. *)
Definition set_field (k : string) (v : jsval) (l : Lead) : Lead :=
  let '(mkLead i n so sa st tg tc pr cl) := l in
  if (k =? "name")%string then mkLead i v so sa st tg tc pr cl
  else if (k =? "source")%string then mkLead i n v sa st tg tc pr cl
  else if (k =? "salesAgent")%string then mkLead i n so v st tg tc pr cl
  else if (k =? "status")%string then mkLead i n so sa v tg tc pr cl
  else if (k =? "tags")%string then mkLead i n so sa st v tc pr cl
  else if (k =? "timeToClose")%string then mkLead i n so sa st tg v pr cl
  else if (k =? "priority")%string then mkLead i n so sa st tg tc v cl
  else if (k =? "closedAt")%string then mkLead i n so sa st tg tc pr v
  else l.

(** *** The casts of the schema *)

(** The ODM's cast of a value to a string: [null] and [undefined] are kept,
    an array cannot be cast, any other value becomes its [toString()]. *)
Definition cast_String (v : jsval) : option jsval :=
  match v with
  | VUndef | VNull => Some v
  | VBool true => Some (VStr "true")
  | VBool false => Some (VStr "false")
  | VNum z => Some (VStr (Z_to_string z))
  | VStr _ => Some v
  | VArr _ => None
  end.

(** The ODM's cast of a value to an identifier, kept as the string of the
    identifier. *)
Definition cast_ObjectId (castId : jsval -> option Id) (v : jsval) : option jsval :=
  match v with
  | VUndef | VNull => Some v
  | _ => match castId v with
         | Some i => Some (VStr i)
         | None => None
         end
  end.

Fixpoint cast_each (f : jsval -> option jsval) (l : list jsval)
  : option (list jsval) :=
  match l with
  | [] => Some []
  | x :: rest =>
      match f x, cast_each f rest with
      | Some x', Some rest' => Some (x' :: rest')
      | _, _ => None
      end
  end.

(** The ODM's cast of a value to an array of identifiers: each element of an
    array is cast, a value that is no array is cast as the array of that one
    value. *)
Definition cast_ObjectIds (castId : jsval -> option Id) (v : jsval) : option jsval :=
  match v with
  | VUndef | VNull => Some v
  | VArr l => option_map VArr (cast_each (cast_ObjectId castId) l)
  | _ => option_map (fun x => VArr [x]) (cast_ObjectId castId v)
  end.

(** Modelled from the spec: the types of the paths of the Lead schema
    ([./models/lead.model], not part of src/): "name (string), source (enum),
    salesAgent (reference to SalesAgent), status (enum), tags (set of
    references to Tag), timeToClose (integer), priority (enum), closedAt
    (timestamp)"; the values of the enumerations are strings. *)
Definition cast_path (castId : jsval -> option Id)
    (cast_Number cast_Date : jsval -> option jsval) (k : string) (v : jsval)
  : option jsval :=
  if (k =? "name")%string then cast_String v
  else if (k =? "source")%string then cast_String v
  else if (k =? "salesAgent")%string then cast_ObjectId castId v
  else if (k =? "status")%string then cast_String v
  else if (k =? "tags")%string then cast_ObjectIds castId v
  else if (k =? "timeToClose")%string then cast_Number v
  else if (k =? "priority")%string then cast_String v
  else if (k =? "closedAt")%string then cast_Date v
  else None.

(** The cast of a value supplied for path [k] of a Lead, [None] when the
    value cannot be cast to the type of the path. *)
Definition lead_cast (D : Driver) (k : string) (v : jsval) : option jsval :=
  cast_path (castId D) (cast_Number D) (cast_Date D) k v.

Definition is_path (k : string) : bool :=
  existsb (String.eqb k) lead_paths.

(** The update a [{$set: data}] becomes: the keys that are no path of the
    schema are dropped, the values of the others are cast; [None] when one of
    them cannot be cast. *)
Fixpoint cast_update (cast : string -> jsval -> option jsval) (data : Obj)
  : option Obj :=
  match data with
  | [] => Some []
  | (k, v) :: rest =>
      if is_path k then
        match cast k v, cast_update cast rest with
        | Some v', Some rest' => Some ((k, v') :: rest')
        | _, _ => None
        end
      else cast_update cast rest
  end.

(** Writes the values of an update that has been cast. *)
Definition set_all (update : Obj) (l : Lead) : Lead :=
  fold_right (fun kv acc => set_field (fst kv) (snd kv) acc) l update.


(** The value path [k] takes when a document is built from [v].
    Modelled from the spec: the defaults of the Lead schema
    ([./models/lead.model], not part of src/): "status (..., default New)",
    and the empty array the ODM gives a path that is an array.  A supplied
    value is cast; one that cannot be cast is kept as supplied until the
    validation at [save] reports it. *)
Definition construct (D : Driver) (k : string) (v : jsval) : jsval :=
  match v with
  | VUndef =>
      if (k =? "status")%string then VStr "New"
      else if (k =? "tags")%string then VArr []
      else VUndef
  | _ =>
      match lead_cast D k v with
      | Some v' => v'
      | None => v
      end
  end.

(** *** The store's own semantics of each call *)

Section Store.
Variable D : Driver.

Definition by_id {A} (id_of : A -> Id) (v : jsval) (l : list A)
  : Result (option A) :=
  match castId D v with
  | None => Throw (Lib CastError)
  | Some i => Ok (find (fun a => (id_of a =? i)%string) l)
  end.

Fixpoint replace_first (i : Id) (l' : Lead) (ls : list Lead) : list Lead :=
  match ls with
  | [] => []
  | x :: rest =>
      if (lead_id x =? i)%string then l' :: rest
      else x :: replace_first i l' rest
  end.

Fixpoint remove_first (i : Id) (ls : list Lead) : list Lead :=
  match ls with
  | [] => []
  | x :: rest =>
      if (lead_id x =? i)%string then rest else x :: remove_first i rest
  end.

Definition with_leads (d : Db) (ls : list Lead) : Db :=
  mkDb ls (agents d) (comments d) (tags d).

Definition sem_SalesAgent_findById (v : jsval) (d : Db)
  : Db * Result (option SalesAgent) :=
  (d, by_id agent_id v (agents d)).

Definition sem_Lead_findById (v : jsval) (d : Db)
  : Db * Result (option Lead) :=
  (d, by_id lead_id v (leads d)).

Definition sem_Lead_save (doc : Lead) (d : Db) : Db * Result Lead :=
  match lead_errors D doc with
  | [] => (with_leads d (leads d ++ [doc]), Ok doc)
  | errs => (d, Throw (Lib (ValidationError errs)))
  end.

Definition populate_salesAgent (d : Db) (l : Lead) : LeadView :=
  mkLeadView l
    match by_id agent_id (lead_salesAgent l) (agents d) with
    | Ok (Some a) => Some (agent_id a, agent_name a)
    | _ => None
    end.

Definition sem_Lead_find_populate (query : Obj) (d : Db)
  : Db * Result (list LeadView) :=
  (d, Ok (map (populate_salesAgent d) (filter (lead_matches D query) (leads d)))).

Definition sem_Lead_findByIdAndUpdate (v : jsval) (data : Obj) (d : Db)
  : Db * Result (option Lead) :=
  match castId D v with
  | None => (d, Throw (Lib CastError))
  | Some i =>
      match lead_update_errors D data with
      | [] =>
          match cast_update (lead_cast D) data with
          | Some update =>
              match find (fun a => (lead_id a =? i)%string) (leads d) with
              | Some l =>
                  let l' := set_all update l in
                  (with_leads d (replace_first i l' (leads d)), Ok (Some l'))
              | None => (d, Ok None)
              end
          | None => (d, Throw (Lib CastError))
          end
      | errs => (d, Throw (Lib (ValidationError errs)))
      end
  end.

Definition sem_Lead_findByIdAndDelete (v : jsval) (d : Db)
  : Db * Result (option Lead) :=
  match castId D v with
  | None => (d, Throw (Lib CastError))
  | Some i =>
      match find (fun a => (lead_id a =? i)%string) (leads d) with
      | Some l => (with_leads d (remove_first i (leads d)), Ok (Some l))
      | None => (d, Ok None)
      end
  end.

(** [{closedAt: {$gte: since}}]: a comparison with a date matches dates
    only. *)
Definition closedAt_gte (since : Z) (l : Lead) : bool :=
  match lead_closedAt l with
  | VNum t => since <=? t
  | _ => false
  end.

Definition sem_Lead_find_closedAt_gte (since : Z) (d : Db)
  : Db * Result (list Lead) :=
  (d, Ok (filter (closedAt_gte since) (leads d))).

Definition sem_Lead_find_status_ne (s : string) (d : Db)
  : Db * Result (list Lead) :=
  (d, Ok (filter (fun l => negb (is_str (lead_status l) s)) (leads d))).

(** Modelled from the spec: the unique index of the SalesAgent schema
    ([./models/salesAgent.model], not part of src/): "email (string,
    required, globally unique)". *)
Definition sem_SalesAgent_save (doc : SalesAgent) (d : Db)
  : Db * Result SalesAgent :=
  match agent_errors D doc with
  | [] =>
      if existsb (fun a => jsval_eqb (agent_email a) (agent_email doc)) (agents d)
      then (d, Throw (Lib DuplicateKeyError))
      else (mkDb (leads d) (agents d ++ [doc]) (comments d) (tags d), Ok doc)
  | errs => (d, Throw (Lib (ValidationError errs)))
  end.

Definition sem_SalesAgent_find (d : Db) : Db * Result (list SalesAgent) :=
  (d, Ok (agents d)).

Definition sem_Comment_save (doc : Comment) (d : Db) : Db * Result Comment :=
  match comment_errors D doc with
  | [] => (mkDb (leads d) (agents d) (comments d ++ [doc]) (tags d), Ok doc)
  | errs => (d, Throw (Lib (ValidationError errs)))
  end.

Definition populate_author (d : Db) (c : Comment) : CommentView :=
  mkCommentView c
    match by_id agent_id (comment_author c) (agents d) with
    | Ok r => r
    | Throw _ => None
    end.

Definition same_ref (i : Id) (v : jsval) : bool :=
  match castId D v with
  | Some j => (j =? i)%string
  | None => false
  end.

Definition sem_Comment_find_populate (lead : jsval) (d : Db)
  : Db * Result (list CommentView) :=
  match castId D lead with
  | None => (d, Throw (Lib CastError))
  | Some i =>
      (d, Ok (map (populate_author d)
                (filter (fun c => same_ref i (comment_lead c)) (comments d))))
  end.

(** Modelled from the spec: the unique index of the Tag schema
    ([./models/tag.model], not part of src/): "name (string, required,
    globally unique)". *)
Definition sem_Tag_save (doc : Tag) (d : Db) : Db * Result Tag :=
  match tag_errors D doc with
  | [] =>
      if existsb (fun t => jsval_eqb (tag_name t) (tag_name doc)) (tags d)
      then (d, Throw (Lib DuplicateKeyError))
      else (mkDb (leads d) (agents d) (comments d) (tags d ++ [doc]), Ok doc)
  | errs => (d, Throw (Lib (ValidationError errs)))
  end.

Definition sem_Tag_find (d : Db) : Db * Result (list Tag) :=
  (d, Ok (tags d)).

(** *** A call to the store: logged, then failed by the persistence layer or
    answered by the store. *)
Definition store_call {A} (c : Call) (sem : Db -> Db * Result A) : M A :=
  fun w =>
    match fault D c (db w) with
    | Some e => (mkWorld (db w) (log w ++ [c]) (now w) (next w), Throw (Lib e))
    | None =>
        (mkWorld (fst (sem (db w))) (log w ++ [c]) (now w) (next w),
         snd (sem (db w)))
    end.

Definition SalesAgent_findById (v : jsval) : M (option SalesAgent) :=
  store_call (CSalesAgent_findById v) (sem_SalesAgent_findById v).
Definition Lead_save (doc : Lead) : M Lead :=
  store_call (CLead_save doc) (sem_Lead_save doc).
Definition Lead_find_populate (query : Obj) : M (list LeadView) :=
  store_call (CLead_find_populate query) (sem_Lead_find_populate query).
Definition Lead_findById (v : jsval) : M (option Lead) :=
  store_call (CLead_findById v) (sem_Lead_findById v).
Definition Lead_findByIdAndUpdate (v : jsval) (data : Obj) : M (option Lead) :=
  store_call (CLead_findByIdAndUpdate v data) (sem_Lead_findByIdAndUpdate v data).
Definition Lead_findByIdAndDelete (v : jsval) : M (option Lead) :=
  store_call (CLead_findByIdAndDelete v) (sem_Lead_findByIdAndDelete v).
Definition SalesAgent_save (doc : SalesAgent) : M SalesAgent :=
  store_call (CSalesAgent_save doc) (sem_SalesAgent_save doc).
Definition SalesAgent_find : M (list SalesAgent) :=
  store_call CSalesAgent_find sem_SalesAgent_find.
Definition Comment_save (doc : Comment) : M Comment :=
  store_call (CComment_save doc) (sem_Comment_save doc).
Definition Comment_find_populate (lead : jsval) : M (list CommentView) :=
  store_call (CComment_find_populate lead) (sem_Comment_find_populate lead).
Definition Lead_find_closedAt_gte (since : Z) : M (list Lead) :=
  store_call (CLead_find_closedAt_gte since) (sem_Lead_find_closedAt_gte since).
Definition Lead_find_status_ne (s : string) : M (list Lead) :=
  store_call (CLead_find_status_ne s) (sem_Lead_find_status_ne s).
Definition Tag_save (doc : Tag) : M Tag :=
  store_call (CTag_save doc) (sem_Tag_save doc).
Definition Tag_find : M (list Tag) :=
  store_call CTag_find sem_Tag_find.

End Store.

(* ------------------------------------------------------------------ *)
(** ** The domain operations *)

Definition validStatuses : list string :=
  ["New"; "Contacted"; "Qualified"; "Proposal Sent"; "Closed"].

Definition validSources : list string :=
  ["Website"; "Referral"; "Cold Call"; "Advertisement"; "Email"; "Other"].

Definition msg_salesAgent : string := "Invalid sales agent ObjectId.".
Definition msg_status : string :=
  "'status' must be one of ['New', 'Contacted', 'Qualified', 'Proposal Sent', 'Closed'].".
Definition msg_source : string :=
  "'source' must be one of ['Website', 'Referral', 'Cold Call', 'Advertisement', 'Email', 'Other']".

(** Modelled from the spec: the Lead schema ([./models/lead.model], not part
    of src/): each path takes the cast of the value it is given or its
    default ([construct]), "closedAt (timestamp, nullable)" has none, and the
    [salesAgent] path keeps the identifier of the document it is given. *)
Definition new_Lead (D : Driver) (id : Id) (name source : jsval)
    (salesAgentData : SalesAgent) (status tags timeToClose priority : jsval) : Lead :=
  mkLead id (construct D "name" name) (construct D "source" source)
    (VStr (agent_id salesAgentData)) (construct D "status" status)
    (construct D "tags" tags) (construct D "timeToClose" timeToClose)
    (construct D "priority" priority) VUndef.

(** Modelled from the spec: the Comment schema ([./models/comment.model],
    not part of src/): "createdAt (timestamp, auto-set)", the time at which
    the document is built. *)
Definition new_Comment (id : Id) (lead commentText author : jsval)
    (createdAt : Z) : Comment :=
  mkComment id lead commentText author createdAt.

Definition set_closedAt (t : jsval) (l : Lead) : Lead :=
  mkLead (lead_id l) (lead_name l) (lead_source l) (lead_salesAgent l)
    (lead_status l) (lead_tags l) (lead_timeToClose l) (lead_priority l) t.

Definition msPerDay : Z := 86400000.

(** The offset of the host's time zone; the offsets of time zones are
    smaller than a day, and an offset beyond that is cut to a day. *)
Definition tza (D : Driver) (t : Z) (isUTC : bool) : Z :=
  Z.max (- msPerDay) (Z.min msPerDay (LocalTZA D t isUTC)).

(** ECMAScript's LocalTime and UTC. *)
Definition LocalTime (D : Driver) (t : Z) : Z := t + tza D t true.
Definition UTC (D : Driver) (t : Z) : Z := t - tza D t false.

(** [d.setDate(d.getDate() - 7)] on the date [d] of instant [t]: the date is
    taken apart in local time, seven days are taken off its day, and the
    result is read as a local time again.  It is the instant at which the
    host's clock showed the same time of day seven calendar days earlier:
    [t] minus seven times 86400000 milliseconds where the offset of the zone
    is the same at both ends, off by the clock change where it is not. *)
Definition sevenDaysBefore (D : Driver) (t : Z) : Z :=
  UTC D (LocalTime D t - 7 * msPerDay).

(** The [catch] block shared by the operations that persist a document:
    a [ValidationError] becomes [INVALID_INPUT]. *)
Definition invalid_input (error : thrown) : thrown :=
  Tagged "INVALID_INPUT"
    ("Invalid Input: " ++ join_with ". " (errors_of error)).

Section Operations.
Variable D : Driver.

(** [createNewLead], server.js:22-64 *)
Definition createNewLead (leadDetails : Obj) : M Lead :=
  try_catch
    (let name := get "name" leadDetails in
     let source := get "source" leadDetails in
     let salesAgent := get "salesAgent" leadDetails in
     let status := get "status" leadDetails in
     let tags := get "tags" leadDetails in
     let timeToClose := get "timeToClose" leadDetails in
     let priority := get "priority" leadDetails in
     if negb (isValid D salesAgent) then
       throw (Tagged "INVALID_ID_FORMAT" "Invalid ID Format.")
     else
       salesAgentData <- SalesAgent_findById D salesAgent ;;
       match salesAgentData with
       | Some agent =>
           id <- fresh (newId D) ;;
           newLead <-
             (let newLead :=
                new_Lead D id name source agent status tags timeToClose priority in
              if is_str status "Closed" then
                t <- Date_now ;; ret (set_closedAt (VNum t) newLead)
              else ret newLead) ;;
           saveLead <- Lead_save D newLead ;;
           ret saveLead
       | None =>
           throw (Tagged "NOT_FOUND"
                    ("Sales agent with ID " ++ js_to_string salesAgent
                       ++ " not found."))
       end)
    (fun error =>
       if name_is error "ValidationError" then throw (invalid_input error)
       else throw error).

(** [getAllLeads], server.js:88-141.  The three checks extend
    [errorObj.message] in turn; the store is queried with the query as it
    came. *)
Definition getAllLeads (query : Obj) : M (list LeadView) :=
  try_catch
    (let message := "Invalid input: " in
     let salesAgent := get "salesAgent" query in
     let status := get "status" query in
     let source := get "source" query in
     let message :=
       if truthy salesAgent then
         if isValid D salesAgent then message else message ++ msg_salesAgent
       else message in
     let message :=
       if truthy status then
         if includes validStatuses status then message else message ++ msg_status
       else message in
     let message :=
       if truthy source then
         if includes validSources source then message else message ++ msg_source
       else message in
     if negb (message =? "Invalid input: ")%string then
       throw (Tagged "INVALID_INPUT" message)
     else
       allLeads <- Lead_find_populate D query ;;
       if negb (List.length allLeads =? 0)%nat then ret allLeads
       else throw (Tagged "NOT_FOUND" "Lead Data Not Found."))
    (fun error => throw error).

(** [updateLead], server.js:160-190; [None] is the [undefined] of the path
    that returns nothing. *)
Definition updateLead (leadId : jsval) (dataToUpdate : Obj) : M (option Lead) :=
  try_catch
    (if negb (isValid D leadId) then
       throw (Tagged "INVALID_ID_FORMAT" "Invalid Lead ID.")
     else
       lead <- Lead_findById D leadId ;;
       match lead with
       | Some _ =>
           updatedLead <- Lead_findByIdAndUpdate D leadId dataToUpdate ;;
           match updatedLead with
           | Some u => ret (Some u)
           | None => ret None
           end
       | None => throw (Tagged "NOT_FOUND" "Lead Not Found.")
       end)
    (fun error =>
       if name_is error "ValidationError" then throw (invalid_input error)
       else throw error).

(** [deleteLead], server.js:213-231 *)
Definition deleteLead (leadId : jsval) : M (option string) :=
  try_catch
    (if negb (isValid D leadId) then
       throw (Tagged "INVALID_ID_FORMAT" "Invalid Lead ID.")
     else
       lead <- Lead_findById D leadId ;;
       match lead with
       | Some _ =>
           deletedLead <- Lead_findByIdAndDelete D leadId ;;
           match deletedLead with
           | Some _ => ret (Some "Lead deleted Successfully.")
           | None => ret None
           end
       | None =>
           throw (Tagged "NOT_FOUND"
                    ("Lead with ID '" ++ js_to_string leadId ++ "' not found."))
       end)
    (fun error => throw error).

(** [createNewSalesAgent], server.js:253-279.  The [catch] block logs the
    error, rethrows the two shapes it knows and ends there: any other error
    falls off the end of the function, which then returns [undefined]. *)
Definition createNewSalesAgent (agentData : Obj) : M (option SalesAgent) :=
  try_catch
    (let name := get "name" agentData in
     let email := get "email" agentData in
     id <- fresh (newId D) ;;
     saveAgent <- SalesAgent_save D (mkAgent id name email) ;;
     ret (Some saveAgent))
    (fun error =>
       if name_is error "ValidationError" then throw (invalid_input error)
       else if code_is error 11000 then
         throw (Tagged "DUPLICATE_KEY"
                  ("Sales agent with email '"
                     ++ js_to_string (get "email" agentData)
                     ++ "' already exists.'"))
       else ret None).

(** [getAllSalesAgents], server.js:303-314 *)
Definition getAllSalesAgents : M (list SalesAgent) :=
  try_catch
    (allSalesAgents <- SalesAgent_find D ;;
     if negb (List.length allSalesAgents =? 0)%nat then ret allSalesAgents
     else throw (Tagged "NOT_FOUND" "Sales Agents Not Found."))
    (fun error => throw error).

(** [addComments], server.js:334-366 *)
Definition addComments (leadId : jsval) (commentData : Obj) : M Comment :=
  try_catch
    (let commentText := get "commentText" commentData in
     let author := get "author" commentData in
     if negb (isValid D leadId) then
       throw (Tagged "INVALID_LEAD_ID" "Invalid Lead ID.")
     else if negb (isValid D author) then
       throw (Tagged "INVALID_AGENT_ID" "Invalid Sales Agent ID.")
     else
       lead <- Lead_findById D leadId ;;
       match lead with
       | Some _ =>
           id <- fresh (newId D) ;;
           t <- Date_now ;;
           saveComment <- Comment_save D (new_Comment id leadId commentText author t) ;;
           ret saveComment
       | None =>
           throw (Tagged "NOT_FOUND"
                    ("Lead with ID '" ++ js_to_string leadId ++ "' not found."))
       end)
    (fun error =>
       if name_is error "ValidationError" then throw (invalid_input error)
       else throw error).

(** [getAllComments], server.js:389-404 *)
Definition getAllComments (leadId : jsval) : M (list CommentView) :=
  try_catch
    (if negb (isValid D leadId) then
       throw (Tagged "INVALID_ID_FORMAT" "Invalid Lead ID Format.")
     else
       allComments <- Comment_find_populate D leadId ;;
       if negb (List.length allComments =? 0)%nat then ret allComments
       else
         throw (Tagged "NOT_FOUND"
                  ("Comments for lead ID '" ++ js_to_string leadId
                     ++ "' not found.")))
    (fun error => throw error).

(** [leadsClosedLastWeek], server.js:427-441 *)
Definition leadsClosedLastWeek : M (list Lead) :=
  try_catch
    (t <- Date_now ;;
     let sevenDaysAgo := sevenDaysBefore D t in
     closedLeads <- Lead_find_closedAt_gte D sevenDaysAgo ;;
     if negb (List.length closedLeads =? 0)%nat then ret closedLeads
     else throw (Tagged "NOT_FOUND" "No Closed Leads for Last Week found."))
    (fun error => throw error).

(** [getTotalLeadsInPipeline], server.js:460-471 *)
Definition getTotalLeadsInPipeline : M nat :=
  try_catch
    (totalLeads <- Lead_find_status_ne D "Closed" ;;
     if negb (List.length totalLeads =? 0)%nat then ret (List.length totalLeads)
     else throw (Tagged "NOT_FOUND" "No Leads Found."))
    (fun error => throw error).

(** [addNewTag], server.js:491-513 *)
Definition addNewTag (tagObj : Obj) : M Tag :=
  try_catch
    (id <- fresh (newId D) ;;
     saveTag <- Tag_save D (mkTag id (get "name" tagObj)) ;;
     ret saveTag)
    (fun error =>
       if name_is error "ValidationError" then throw (invalid_input error)
       else if name_is error "MongoServerError" && code_is error 11000 then
         throw (Tagged "DUPLICATE_KEY"
                  ("Tag with name '" ++ js_to_string (get "name" tagObj)
                     ++ "' already exists.'"))
       else throw error).

(** [getAllTags], server.js:534-545 *)
Definition getAllTags : M (list Tag) :=
  try_catch
    (allTags <- Tag_find D ;;
     if negb (List.length allTags =? 0)%nat then ret allTags
     else throw (Tagged "NOT_FOUND" "No Tags Found."))
    (fun error => throw error).

End Operations.

(* ------------------------------------------------------------------ *)
(** ** The route handlers *)

Inductive Body : Type :=
| JLead (l : Lead)
| JLeadViews (l : list LeadView)
| JLeads (l : list Lead)
| JAgent (a : SalesAgent)
| JAgents (l : list SalesAgent)
| JComment (c : Comment)
| JCommentViews (l : list CommentView)
| JTags (l : list Tag)
| JTotal (totalLeadsInPipeline : nat)
| JMessage (message : string)
| JError (error : string).

(** [res.status(code).json(body)] *)
Record Response : Type := mkResponse {
  status_code : nat;
  json : Body
}.

(** A handler either sends one response or ends without sending any
    ([None]: the request is left unanswered). *)
Definition Handler : Type := World -> World * option Response.

(** [case "T":] of a [switch (error.type)] *)
Definition type_is (e : thrown) (t : string) : bool :=
  match type_of e with
  | Some t' => (t' =? t)%string
  | None => false
  end.

Definition reply (code : nat) (b : Body) : option Response :=
  Some (mkResponse code b).

Definition reply_error (code : nat) (e : thrown) : option Response :=
  reply code (JError (message_of e)).

Section Routes.
Variable D : Driver.

(** [app.post('/leads')], server.js:66-84 *)
Definition post_leads (body : Obj) : Handler := fun w =>
  match createNewLead D body w with
  | (w', Ok response) =>
      (w', if truthy (lead_name response) then reply 201 (JLead response)
           else None)
  | (w', Throw error) =>
      (w', if type_is error "INVALID_ID_FORMAT" then reply_error 400 error
           else if type_is error "NOT_FOUND" then reply_error 404 error
           else if type_is error "INVALID_INPUT" then reply_error 400 error
           else reply 500 (JError "Server Error."))
  end.

(** [app.get('/leads')], server.js:143-157: the [switch] has no [default]. *)
Definition get_leads (query : Obj) : Handler := fun w =>
  match getAllLeads D query w with
  | (w', Ok allLeads) => (w', reply 200 (JLeadViews allLeads))
  | (w', Throw error) =>
      (w', if type_is error "INVALID_INPUT" then reply_error 400 error
           else if type_is error "NOT_FOUND" then reply_error 404 error
           else None)
  end.

(** [app.put('/leads/:id')], server.js:192-210 *)
Definition put_leads_id (id : string) (body : Obj) : Handler := fun w =>
  match updateLead D (VStr id) body w with
  | (w', Ok updatedLead) =>
      (w', match updatedLead with
           | Some u => reply 200 (JLead u)
           | None => None
           end)
  | (w', Throw error) =>
      (w', if type_is error "INVALID_ID_FORMAT" then reply_error 400 error
           else if type_is error "NOT_FOUND" then reply_error 404 error
           else if type_is error "INVALID_INPUT" then reply_error 400 error
           else reply 500 (JError "Server Error"))
  end.

(** [app.delete('/leads/:id')], server.js:233-249 *)
Definition delete_leads_id (id : string) : Handler := fun w =>
  match deleteLead D (VStr id) w with
  | (w', Ok response) =>
      (w', match response with
           | Some m => if truthy (VStr m) then reply 200 (JMessage m) else None
           | None => None
           end)
  | (w', Throw error) =>
      (w', if type_is error "INVALID_ID_FORMAT" then reply_error 400 error
           else if type_is error "NOT_FOUND" then reply_error 404 error
           else reply 500 (JError "Server Error"))
  end.

(** [app.post('/agents')], server.js:281-300 *)
Definition post_agents (body : Obj) : Handler := fun w =>
  match createNewSalesAgent D body w with
  | (w', Ok agent) =>
      (w', match agent with
           | Some a => reply 201 (JAgent a)
           | None => None
           end)
  | (w', Throw error) =>
      (w', if type_is error "INVALID_INPUT" then reply_error 400 error
           else if type_is error "DUPLICATE_KEY" then reply_error 409 error
           else reply 500 (JError "Server Error."))
  end.

(** [app.get('/agents')], server.js:316-330 *)
Definition get_agents : Handler := fun w =>
  match getAllSalesAgents D w with
  | (w', Ok response) => (w', reply 200 (JAgents response))
  | (w', Throw error) =>
      (w', if type_is error "NOT_FOUND" then reply_error 404 error
           else reply 500 (JError "Server Error."))
  end.

(** [app.post('/leads/:id/comments')], server.js:368-386: the [switch] has
    no [default]. *)
Definition post_leads_id_comments (id : string) (body : Obj) : Handler := fun w =>
  match addComments D (VStr id) body w with
  | (w', Ok addedComment) => (w', reply 201 (JComment addedComment))
  | (w', Throw error) =>
      (w', if type_is error "INVALID_LEAD_ID" then reply_error 400 error
           else if type_is error "INVALID_AGENT_ID" then reply_error 400 error
           else if type_is error "NOT_FOUND" then reply_error 404 error
           else if type_is error "INVALID_INPUT" then reply_error 400 error
           else None)
  end.

(** [app.get('/leads/:id/comments')], server.js:406-423 *)
Definition get_leads_id_comments (id : string) : Handler := fun w =>
  match getAllComments D (VStr id) w with
  | (w', Ok allComments) => (w', reply 200 (JCommentViews allComments))
  | (w', Throw error) =>
      (w', if type_is error "INVALID_ID_FORMAT" then reply_error 400 error
           else if type_is error "NOT_FOUND" then reply_error 404 error
           else reply 500 (JError "Server Error."))
  end.

(** [app.get('/report/last-week')], server.js:443-457 *)
Definition get_report_last_week : Handler := fun w =>
  match leadsClosedLastWeek D w with
  | (w', Ok closedLeads) => (w', reply 200 (JLeads closedLeads))
  | (w', Throw error) =>
      (w', if type_is error "NOT_FOUND" then reply_error 404 error
           else reply 500 (JError "Server Error."))
  end.

(** [app.get('/report/pipeline')], server.js:473-487 *)
Definition get_report_pipeline : Handler := fun w =>
  match getTotalLeadsInPipeline D w with
  | (w', Ok totalLeadsNum) =>
      (w', if negb (totalLeadsNum =? 0)%nat then reply 200 (JTotal totalLeadsNum)
           else None)
  | (w', Throw error) =>
      (w', if type_is error "NOT_FOUND" then reply_error 404 error
           else reply 500 (JError "Server Error."))
  end.

(** [app.post('/tags')], server.js:515-531 *)
Definition post_tags (body : Obj) : Handler := fun w =>
  match addNewTag D body w with
  | (w', Ok _) => (w', reply 200 (JMessage "New Tag Created Successfully!"))
  | (w', Throw error) =>
      (w', if type_is error "INVALID_INPUT" then reply_error 400 error
           else if type_is error "DUPLICATE_KEY" then reply_error 409 error
           else reply 500 (JError "Server Error."))
  end.

(** [app.get('/tags')], server.js:547-561 *)
Definition get_tags : Handler := fun w =>
  match getAllTags D w with
  | (w', Ok response) => (w', reply 200 (JTags response))
  | (w', Throw error) =>
      (w', if type_is error "NOT_FOUND" then reply_error 404 error
           else reply 500 (JError "Server Error."))
  end.

End Routes.

(* ------------------------------------------------------------------ *)
(** ** A reference driver *)

(** One concrete choice for what the handlers take from outside, used to run
    the operations on concrete requests: identifiers are the strings of 24
    hexadecimal digits, which the identifier check accepts as it accepts any
    number; the persistence layer never fails; a filter matches by equality
    on the paths of the schema; the host runs on UTC. *)
Module Reference.

Definition is_hex (c : ascii) : bool :=
  let n := nat_of_ascii c in
  ((48 <=? n) && (n <=? 57) || (97 <=? n) && (n <=? 102)
   || (65 <=? n) && (n <=? 70))%nat.

Definition lower (c : ascii) : ascii :=
  let n := nat_of_ascii c in
  if ((65 <=? n) && (n <=? 70))%nat then ascii_of_nat (n + 32) else c.

Fixpoint all_hex (s : string) : bool :=
  match s with
  | EmptyString => true
  | String c rest => is_hex c && all_hex rest
  end.

Fixpoint lower_all (s : string) : string :=
  match s with
  | EmptyString => EmptyString
  | String c rest => String (lower c) (lower_all rest)
  end.

Definition is_hex24 (s : string) : bool :=
  (String.length s =? 24)%nat && all_hex s.

(** [mongoose.Types.ObjectId.isValid]: a string of 24 hexadecimal digits,
    and any number (from which the constructor of an identifier makes a
    fresh one); [null], [undefined], booleans, arrays and other strings are
    refused. *)
Definition ObjectId_isValid (v : jsval) : bool :=
  match v with
  | VStr s => is_hex24 s
  | VNum _ => true
  | _ => false
  end.

(** The cast of a value to an identifier, as the schema and [findById] apply
    it: the value's [toString()] has to be 24 hexadecimal digits, which the
    string of no number is. *)
Definition ObjectId_cast (v : jsval) : option Id :=
  match v with
  | VStr s => if is_hex24 s then Some (lower_all s) else None
  | _ => None
  end.

(** *** Numbers and dates *)

Definition is_space (c : ascii) : bool :=
  let n := nat_of_ascii c in
  ((n =? 32) || (9 <=? n) && (n <=? 13))%nat.

Fixpoint trim_left (s : string) : string :=
  match s with
  | EmptyString => EmptyString
  | String c rest => if is_space c then trim_left rest else s
  end.

Fixpoint trim_right (s : string) : string :=
  match s with
  | EmptyString => EmptyString
  | String c rest =>
      match trim_right rest with
      | EmptyString => if is_space c then EmptyString else String c EmptyString
      | rest' => String c rest'
      end
  end.

Definition digit (c : ascii) : option Z :=
  let n := nat_of_ascii c in
  if ((48 <=? n) && (n <=? 57))%nat then Some (Z.of_nat n - 48) else None.

Fixpoint digits (acc : Z) (s : string) : option Z :=
  match s with
  | EmptyString => Some acc
  | String c rest =>
      match digit c with
      | Some d => digits (10 * acc + d) rest
      | None => None
      end
  end.

Definition unsigned (s : string) : option Z :=
  match s with
  | EmptyString => None
  | _ => digits 0 s
  end.

(** [Number(s)] on the strings that spell an integer in decimal digits, with
    an optional sign and blanks around it; a blank string is 0.  The other
    numeric literals of JavaScript (fractions, exponents, other radixes,
    Infinity) are outside the integers the values carry and are not read. *)
Definition Number_of_string (s : string) : option Z :=
  match trim_right (trim_left s) with
  | EmptyString => Some 0
  | String "+" rest => unsigned rest
  | String "-" rest => option_map Z.opp (unsigned rest)
  | t => unsigned t
  end.

(** The ODM's cast to a number: the empty string is [null], a string or a
    boolean goes through [Number], an array cannot be cast. *)
Definition Number_cast (v : jsval) : option jsval :=
  match v with
  | VUndef | VNull => Some v
  | VStr EmptyString => Some VNull
  | VStr s => option_map VNum (Number_of_string s)
  | VBool b => Some (VNum (if b then 1 else 0))
  | VNum _ => Some v
  | VArr _ => None
  end.

(** Days from 1 January 1970 to the given day of the proleptic Gregorian
    calendar. *)
Definition days_from_civil (y m d : Z) : Z :=
  let y' := if m <=? 2 then y - 1 else y in
  let era := y' / 400 in
  let yoe := y' - era * 400 in
  let mp := (m + 9) mod 12 in
  let doy := (153 * mp + 2) / 5 + d - 1 in
  let doe := yoe * 365 + yoe / 4 - yoe / 100 + doy in
  era * 146097 + doe - 719468.

Definition within (lo hi : Z) (x : option Z) : option Z :=
  match x with
  | Some n => if (lo <=? n) && (n <=? hi) then Some n else None
  | None => None
  end.

Definition field (s : string) (start len : nat) (lo hi : Z) : option Z :=
  within lo hi (unsigned (substring start len s)).

Definition literal (s : string) (start : nat) (lit : string) : bool :=
  (substring start (String.length lit) s =? lit)%string.

(** [Date.parse] on the forms of ECMAScript's date-time format that name
    UTC: the dates [YYYY], [YYYY-MM] and [YYYY-MM-DD], and the date-times
    [YYYY-MM-DDTHH:mm:ssZ] and [YYYY-MM-DDTHH:mm:ss.sssZ].  Other spellings
    of a date are not read. *)
Definition Date_parse (s : string) : option Z :=
  let n := String.length s in
  let year := field s 0 4 0 9999 in
  let month :=
    if (n <? 7)%nat then Some 1
    else if literal s 4 "-" then field s 5 2 1 12 else None in
  let day :=
    if (n <? 10)%nat then Some 1
    else if literal s 7 "-" then field s 8 2 1 31 else None in
  let date :=
    match year, month, day with
    | Some y, Some m, Some d => Some (days_from_civil y m d * 86400000)
    | _, _, _ => None
    end in
  let time :=
    match field s 11 2 0 23, field s 14 2 0 59, field s 17 2 0 59 with
    | Some h, Some mi, Some se =>
        if literal s 10 "T" && literal s 13 ":" && literal s 16 ":"
        then Some (h * 3600000 + mi * 60000 + se * 1000)
        else None
    | _, _, _ => None
    end in
  match n, date, time with
  | 4%nat, Some d, _ => Some d
  | 7%nat, Some d, _ => Some d
  | 10%nat, Some d, _ => Some d
  | 20%nat, Some d, Some t => if literal s 19 "Z" then Some (d + t) else None
  | 24%nat, Some d, Some t =>
      match field s 20 3 0 999 with
      | Some ms =>
          if literal s 19 "." && literal s 23 "Z" then Some (d + t + ms) else None
      | None => None
      end
  | _, _, _ => None
  end.

Definition valid_time (t : Z) : option jsval :=
  if (- 8640000000000000 <=? t) && (t <=? 8640000000000000)
  then Some (VNum t) else None.

(** The ODM's cast to a date, a date being kept as its epoch milliseconds:
    [null] and the empty string are [null]; a number is the date of that
    many milliseconds; a string that spells a number of 275761 or more, or
    below -271820, is read as milliseconds, any other string by
    [Date.parse]; a boolean or an array cannot be cast. *)
Definition Date_cast (v : jsval) : option jsval :=
  match v with
  | VUndef | VNull => Some VNull
  | VStr EmptyString => Some VNull
  | VNum t => valid_time t
  | VStr s =>
      match Number_of_string s with
      | Some n =>
          if (275761 <=? n) || (n <? -271820) then valid_time n
          else match Date_parse s with Some t => valid_time t | None => None end
      | None => match Date_parse s with Some t => valid_time t | None => None end
      end
  | VBool _ | VArr _ => None
  end.

Definition cast : string -> jsval -> option jsval :=
  cast_path ObjectId_cast Number_cast Date_cast.

(** A host on UTC. *)
Definition utc (t : Z) (isUTC : bool) : Z := 0.

(** A host in Europe/Berlin around the clock change of 26 March 2023, when
    at 01:00 UTC (instant 1679792400000) the offset went from one hour to
    two; a local time that the change skipped takes the offset before it. *)
Definition berlin (t : Z) (isUTC : bool) : Z :=
  if isUTC then (if t <? 1679792400000 then 3600000 else 7200000)
  else (if t <? 1679792400000 + 7200000 then 3600000 else 7200000).

Fixpoint zeros (n : nat) : string :=
  match n with
  | O => EmptyString
  | S k => String "0" (zeros k)
  end.

Definition ObjectId_new (n : nat) : Id :=
  let digits := NilZero.string_of_uint (Nat.to_uint n) in
  zeros (24 - String.length digits) ++ digits.

Definition no_fault (c : Call) (d : Db) : option LibErr := None.

Definition matches (query : Obj) (l : Lead) : bool :=
  forallb (fun kv =>
             match lead_field (fst kv) l with
             | Some v => jsval_eqb v (snd kv)
             | None => false
             end) query.

(** *** The messages of the validation *)

Definition dq : string := String (ascii_of_nat 34) EmptyString.

Definition type_name (v : jsval) : string :=
  match v with
  | VUndef => "undefined"
  | VNull => "null"
  | VBool _ => "boolean"
  | VNum _ => "number"
  | VStr _ => "string"
  | VArr _ => "Array"
  end.

(** The value as the message of a failed cast prints it; the elements of an
    array are printed on one line. *)
Fixpoint inspect (top : bool) (v : jsval) : string :=
  match v with
  | VStr s => if top then s else "'" ++ s ++ "'"
  | VArr l =>
      match l with
      | [] => "[]"
      | _ =>
          "[ "
            ++ (fix items (xs : list jsval) : string :=
                  match xs with
                  | [] => ""
                  | [x] => inspect false x
                  | x :: rest => inspect false x ++ ", " ++ items rest
                  end) l
            ++ " ]"
      end
  | _ => js_to_string v
  end.

Definition cast_message (kind path : string) (v : jsval) : string :=
  "Cast to " ++ kind ++ " failed for value " ++ dq ++ inspect true v ++ dq
    ++ " (type " ++ type_name v ++ ") at path " ++ dq ++ path ++ dq.

Definition kind_of (path : string) : string :=
  if (path =? "timeToClose")%string then "Number"
  else if (path =? "closedAt")%string then "date"
  else if (path =? "tags")%string then "[ObjectId]"
  else if (path =? "salesAgent")%string then "ObjectId"
  else "string".

(** The messages for the value of one path of a document: that of the cast
    when the value could not be cast when the document was built, those of
    the path's validators otherwise. *)
Definition checked (path : string) (v : jsval) (validators : jsval -> list string)
  : list string :=
  match cast path v with
  | None => [cast_message (kind_of path) path v]
  | Some _ => validators v
  end.

Definition required (path : string) (v : jsval) : list string :=
  match v with
  | VUndef | VNull | VStr "" => ["Path `" ++ path ++ "` is required."]
  | _ => []
  end.

Definition one_of (path : string) (allowed : list string) (v : jsval)
  : list string :=
  match v with
  | VUndef | VNull => []
  | _ =>
      if includes allowed v then []
      else ["`" ++ js_to_string v ++ "` is not a valid enum value for path `"
              ++ path ++ "`."]
  end.

(** Modelled from the spec: the constraints of the Lead schema
    ([./models/lead.model], not part of src/): name, source, salesAgent and
    timeToClose required, source and status within their enumerations. *)
Definition Lead_validate (l : Lead) : list string :=
  checked "name" (lead_name l) (required "name")
    ++ checked "source" (lead_source l)
         (fun v => (required "source" v ++ one_of "source" validSources v)%list)
    ++ required "salesAgent" (lead_salesAgent l)
    ++ checked "status" (lead_status l) (one_of "status" validStatuses)
    ++ checked "tags" (lead_tags l) (fun _ => [])
    ++ checked "timeToClose" (lead_timeToClose l) (required "timeToClose")
    ++ checked "priority" (lead_priority l) (fun _ => []).

(** Modelled from the spec: the same constraints, on the supplied paths
    only and on their values as cast, as [runValidators: true] applies them
    to a [$set]; none when a value cannot be cast, the cast failing
    instead. *)
Definition Lead_validate_update (data : Obj) : list string :=
  match cast_update cast data with
  | None => []
  | Some update =>
      flat_map (fun kv =>
                  let k := fst kv in
                  let v := snd kv in
                  if (k =? "name")%string then required "name" v
                  else if (k =? "source")%string then
                    (required "source" v ++ one_of "source" validSources v)%list
                  else if (k =? "salesAgent")%string then required "salesAgent" v
                  else if (k =? "status")%string then
                    one_of "status" validStatuses v
                  else if (k =? "timeToClose")%string then
                    required "timeToClose" v
                  else []) update
  end.

(** Modelled from the spec: the constraints of the SalesAgent, Comment and
    Tag schemas ([./models/*.model], not part of src/): their required
    paths. *)
Definition SalesAgent_validate (a : SalesAgent) : list string :=
  required "name" (agent_name a) ++ required "email" (agent_email a).

Definition reference (path : string) (v : jsval) : list string :=
  match cast_ObjectId ObjectId_cast v with
  | None =>
      [cast_message "ObjectId" path v ++ " because of " ++ dq ++ "BSONError" ++ dq]
  | Some _ => required path v
  end.

Definition Comment_validate (c : Comment) : list string :=
  reference "lead" (comment_lead c)
    ++ match cast_String (comment_commentText c) with
       | None => [cast_message "string" "commentText" (comment_commentText c)]
       | Some _ => required "commentText" (comment_commentText c)
       end
    ++ reference "author" (comment_author c).

Definition Tag_validate (t : Tag) : list string :=
  required "name" (tag_name t).

Definition driver : Driver :=
  mkDriver ObjectId_isValid ObjectId_cast ObjectId_new no_fault matches
    Lead_validate Lead_validate_update SalesAgent_validate Comment_validate
    Tag_validate Number_cast Date_cast utc.

(** The same driver with a persistence layer that raises [e] at every
    call. *)
Definition failing (e : LibErr) : Driver :=
  mkDriver ObjectId_isValid ObjectId_cast ObjectId_new (fun _ _ => Some e)
    matches Lead_validate Lead_validate_update SalesAgent_validate
    Comment_validate Tag_validate Number_cast Date_cast utc.

(** The same driver on a host in Europe/Berlin. *)
Definition in_berlin : Driver :=
  mkDriver ObjectId_isValid ObjectId_cast ObjectId_new no_fault matches
    Lead_validate Lead_validate_update SalesAgent_validate Comment_validate
    Tag_validate Number_cast Date_cast berlin.

Definition NetworkError : LibErr :=
  mkLibErr "MongoNetworkError" None "connection timed out" [].

Definition agent1 : SalesAgent :=
  mkAgent "64b0c0ffee0000000000a001" (VStr "Asha") (VStr "asha@example.com").

Definition lead1 : Lead :=
  mkLead "64b0c0ffee0000000000b001" (VStr "Acme") (VStr "Website")
    (VStr "64b0c0ffee0000000000a001") (VStr "New") (VArr [])
    (VNum 30) (VStr "High") VUndef.

Definition db1 : Db := mkDb [lead1] [agent1] [] [].

(** A lead whose closedAt lies after the instants the examples run at. *)
Definition lead2 : Lead :=
  mkLead "64b0c0ffee0000000000b002" (VStr "Globex") (VStr "Email")
    (VStr "64b0c0ffee0000000000a001") (VStr "Closed") (VArr [])
    (VNum 10) VUndef (VNum 2000000000000).

Definition db2 : Db := mkDb [lead1; lead2] [agent1] [] [].

(** The same store before closedAt of the second lead was set. *)
Definition db2_before : Db :=
  mkDb [lead1; set_closedAt VUndef lead2] [agent1] [] [].

(** Two leads closed in the week before 29 March 2023, 12:00 UTC (instant
    1680091200000): the first 6 days 23 hours 30 minutes before it, the
    second one day before it. *)
Definition lead3 : Lead :=
  mkLead "64b0c0ffee0000000000b003" (VStr "Hooli") (VStr "Referral")
    (VStr "64b0c0ffee0000000000a001") (VStr "Closed") (VArr [])
    (VNum 3) VUndef (VNum 1679488200000).

Definition lead4 : Lead :=
  mkLead "64b0c0ffee0000000000b004" (VStr "Umbrella") (VStr "Other")
    (VStr "64b0c0ffee0000000000a001") (VStr "Closed") (VArr [])
    (VNum 8) VUndef (VNum 1680004800000).

Definition db3 : Db := mkDb [lead3; lead4] [agent1] [] [].

Definition world (d : Db) (t : Z) : World := mkWorld d [] t 0.

End Reference.

(* ------------------------------------------------------------------ *)
(** ** The sentences of the specification, as worded *)

(** What the store answers to a call: the error of the persistence layer if
    it raises one, the result of the store's own semantics otherwise. *)
Definition answer {A} (D : Driver) (c : Call) (sem : Db -> Db * Result A)
    (d : Db) : Result A :=
  match fault D c d with
  | Some e => Throw (Lib e)
  | None => snd (sem d)
  end.

(** The outcome of a list operation on the result set [rs] of its query. *)
Definition listed {A} (rs : list A) (message : string) : Result (list A) :=
  match rs with
  | [] => Throw (Tagged "NOT_FOUND" message)
  | _ :: _ => Ok rs
  end.

(** A filter property that is there at all. *)
Definition present (v : jsval) : bool :=
  match v with
  | VUndef => false
  | _ => true
  end.

(** The message of List Leads for the filters found in violation. *)
Definition filter_messages (bad_salesAgent bad_status bad_source : bool) : string :=
  "Invalid input: "
    ++ (if bad_salesAgent then msg_salesAgent else "")
    ++ (if bad_status then msg_status else "")
    ++ (if bad_source then msg_source else "").

(** The filters of a query that List Leads holds in violation, where
    [supplied] says which values count as a supplied filter. *)
Definition bad_salesAgent (D : Driver) (supplied : jsval -> bool) (q : Obj) : bool :=
  supplied (get "salesAgent" q) && negb (isValid D (get "salesAgent" q)).
Definition bad_status (supplied : jsval -> bool) (q : Obj) : bool :=
  supplied (get "status" q) && negb (includes validStatuses (get "status" q)).
Definition bad_source (supplied : jsval -> bool) (q : Obj) : bool :=
  supplied (get "source" q) && negb (includes validSources (get "source" q)).

(** C3 as the specification words it: any filter that is there and is
    invalid makes the call fail with the concatenated message, the world
    (and with it the log of store calls) untouched. *)
Definition ListLeads_rejects_as_stated (D : Driver) (q : Obj) (w : World) : Prop :=
  bad_salesAgent D present q || bad_status present q || bad_source present q = true ->
  getAllLeads D q w =
    (w, Throw (Tagged "INVALID_INPUT"
                 (filter_messages (bad_salesAgent D present q)
                    (bad_status present q) (bad_source present q)))).



(** Closed within the seven days up to [t], both ends included. *)
Definition in_last_week (D : Driver) (t : Z) (l : Lead) : bool :=
  match lead_closedAt l with
  | VNum c => (sevenDaysBefore D t <=? c) && (c <=? t)
  | _ => false
  end.

(** C9 as the specification words it. *)
Definition ClosedLastWeek_as_stated (D : Driver) (w : World) : Prop :=
  fault D (CLead_find_closedAt_gte (sevenDaysBefore D (now w))) (db w) = None ->
  snd (leadsClosedLastWeek D w) =
    listed (filter (in_last_week D (now w)) (leads (db w)))
      "No Closed Leads for Last Week found.".

(** The invariant of C2 on one lead. *)
Definition closedAt_iff_Closed (l : Lead) : Prop :=
  lead_closedAt l <> VUndef <-> lead_status l = VStr "Closed".

(* ------------------------------------------------------------------ *)
(** ** Notions used by the further properties *)

(** A persistence layer that raises no error of its own. *)
Definition no_faults (D : Driver) : Prop :=
  forall (c : Call) (d : Db), fault D c d = None.

(** [{status: {$ne: 'Closed'}}] on one lead. *)
Definition in_pipeline (l : Lead) : bool :=
  negb (is_str (lead_status l) "Closed").

(** The document Create Lead hands to [save] when it runs in world [w] and
    has found [agent]. *)
Definition built_Lead (D : Driver) (leadDetails : Obj) (agent : SalesAgent)
    (w : World) : Lead :=
  let newLead :=
    new_Lead D (newId D (next w)) (get "name" leadDetails)
      (get "source" leadDetails) agent (get "status" leadDetails)
      (get "tags" leadDetails) (get "timeToClose" leadDetails)
      (get "priority" leadDetails) in
  if is_str (get "status" leadDetails) "Closed"
  then set_closedAt (VNum (now w)) newLead
  else newLead.

(** The document Add Comment hands to [save] when it runs in world [w]. *)
Definition built_Comment (D : Driver) (leadId : jsval) (commentData : Obj)
    (w : World) : Comment :=
  new_Comment (newId D (next w)) leadId (get "commentText" commentData)
    (get "author" commentData) (now w).


(* ------------------------------------------------------------------ *)
(** ** Basic facts about the monad and the store *)

(** Unfolds the monad in a goal about one run of an operation. *)
Ltac run_op :=
  unfold try_catch, bind, throw, ret, Date_now, fresh; simpl.

(** One case distinction on what the driver or the store answers. *)
Ltac case_step :=
  match goal with
  | |- context [isValid ?D ?v] => destruct (isValid D v) eqn:?
  | |- context [fault ?D ?c ?d] => destruct (fault D c d) eqn:?
  | |- context [castId ?D ?v] => destruct (castId D v) eqn:?
  | |- context [find ?f ?l] => destruct (find f l) eqn:?
  | |- context [lead_update_errors ?D ?x] => destruct (lead_update_errors D x) eqn:?
  | |- context [cast_update ?c ?x] => destruct (cast_update c x) eqn:?
  | |- context [tag_errors ?D ?x] => destruct (tag_errors D x) eqn:?
  | |- context [lead_errors ?D ?x] => destruct (lead_errors D x) eqn:?
  | |- context [agent_errors ?D ?x] => destruct (agent_errors D x) eqn:?
  | |- context [comment_errors ?D ?x] => destruct (comment_errors D x) eqn:?
  | |- context [is_str ?v ?s] => destruct (is_str v s) eqn:?
  | |- context [existsb ?f ?l] => destruct (existsb f l) eqn:?
  | |- context [filter ?f ?l] => destruct (filter f l) eqn:?
  | |- context [map ?f ?l] => destruct (map f l) eqn:?
  | |- context [agents ?d] => destruct (agents d) eqn:?
  | |- context [tags ?d] => destruct (tags d) eqn:?
  | |- context [String.eqb (e_name ?e) ?n] => destruct (String.eqb (e_name e) n) eqn:?
  | |- context [e_code ?e] => destruct (e_code e) eqn:?
  | |- context [Z.eqb ?a ?b] => destruct (Z.eqb a b) eqn:?
  end.


Lemma store_call_answers {A} (D : Driver) (c : Call) (sem : Db -> Db * Result A)
    (w : World) :
  fault D c (db w) = None ->
  store_call D c sem w =
    (mkWorld (fst (sem (db w))) (log w ++ [c]) (now w) (next w), snd (sem (db w))).
Proof.
  intros Hf. unfold store_call. rewrite Hf. reflexivity.
Qed.

Lemma answer_Ok {A} (D : Driver) (c : Call) (sem : Db -> Db * Result A)
    (d : Db) (r : A) :
  answer D c sem d = Ok r -> fault D c d = None /\ snd (sem d) = Ok r.
Proof.
  unfold answer. destruct (fault D c d); [discriminate | auto].
Qed.

Lemma find_id_eq {A} (id_of : A -> Id) (i : Id) (l : list A) (a : A) :
  find (fun x => (id_of x =? i)%string) l = Some a -> id_of a = i /\ In a l.
Proof.
  intros H. apply find_some in H. destruct H as [Hin Heq].
  apply String.eqb_eq in Heq. auto.
Qed.





(* ------------------------------------------------------------------ *)
(** ** C1: Create Lead and the salesAgent reference *)




(** What the check lets through and the store cannot cast: the lookup fails
    with a CastError, which Create Lead rethrows as it is; POST /leads
    answers 500, the store is as before and no Lead is persisted. *)
Lemma createNewLead_uncastable_is_CastError :
  forall (D : Driver) (leadDetails : Obj) (w : World),
    isValid D (get "salesAgent" leadDetails) = true ->
    fault D (CSalesAgent_findById (get "salesAgent" leadDetails)) (db w) = None ->
    castId D (get "salesAgent" leadDetails) = None ->
    snd (createNewLead D leadDetails w) = Throw (Lib CastError)
    /\ snd (post_leads D leadDetails w) = reply 500 (JError "Server Error.")
    /\ db (fst (createNewLead D leadDetails w)) = db w.
Proof.
  intros D leadDetails w Hv Hf Hcast.
  unfold post_leads, createNewLead, SalesAgent_findById. run_op. rewrite Hv.
  simpl. rewrite (store_call_answers D _ _ w Hf). simpl.
  unfold by_id. rewrite Hcast. simpl. repeat split.
Qed.

(* ------------------------------------------------------------------ *)
(** ** C2: closedAt and the Closed status *)






(** C2.  Update Lead does not keep the invariant.  On the store holding one
    New lead with closedAt unset, the update {status: "Closed"} succeeds and
    the persisted record has status Closed with closedAt still unset. *)
Theorem updateLead_to_Closed_leaves_closedAt_unset :
  closedAt_iff_Closed Reference.lead1
  /\ exists w' u,
       updateLead Reference.driver (VStr "64b0c0ffee0000000000b001")
         [("status", VStr "Closed")] (Reference.world Reference.db1 0)
       = (w', Ok (Some u))
       /\ leads (db w') = [u]
       /\ lead_status u = VStr "Closed"
       /\ lead_closedAt u = VUndef
       /\ ~ closedAt_iff_Closed u.
Proof.
  split.
  - unfold closedAt_iff_Closed. simpl. split; [congruence | discriminate].
  - eexists. eexists. split; [vm_compute; reflexivity |].
    repeat split.
    unfold closedAt_iff_Closed. simpl. intros [_ H]. apply H; reflexivity.
Qed.

(* ------------------------------------------------------------------ *)
(** ** C3: List Leads rejects invalid filters before it queries *)

(** The wording of C3 fails on a filter that is there but empty: for
    [GET /leads?status=] the status is the empty string, which is none of
    the five values, yet the guard [if (status)] skips it and the store is
    queried. *)
Lemma getAllLeads_empty_status_is_queried :
  ~ ListLeads_rejects_as_stated Reference.driver [("status", VStr "")]
      (Reference.world Reference.db1 0).
Proof.
  unfold ListLeads_rejects_as_stated. intros H.
  specialize (H eq_refl). vm_compute in H. discriminate H.
Qed.

(** C3, amended.  Whenever a truthy salesAgent filter is no valid identifier,
    or a truthy status or source filter is outside its enumeration, List
    Leads fails with INVALID_INPUT whose message is the prefix followed by
    the messages of all violated filters, and the world is returned as it
    was: no call to the store has been logged. *)
Theorem getAllLeads_rejects_invalid_filters :
  forall (D : Driver) (q : Obj) (w : World),
    bad_salesAgent D truthy q || bad_status truthy q || bad_source truthy q = true ->
    getAllLeads D q w =
      (w, Throw (Tagged "INVALID_INPUT"
                   (filter_messages (bad_salesAgent D truthy q)
                      (bad_status truthy q) (bad_source truthy q)))).
Proof.
  intros D q w.
  unfold bad_salesAgent, bad_status, bad_source, getAllLeads, try_catch, throw.
  generalize (truthy (get "salesAgent" q)), (isValid D (get "salesAgent" q)),
    (truthy (get "status" q)), (includes validStatuses (get "status" q)),
    (truthy (get "source" q)), (includes validSources (get "source" q)).
  intros [] [] [] [] [] []; simpl; intros H; try discriminate H; reflexivity.
Qed.

Lemma getAllLeads_rejects_invalid_filters_witness :
  getAllLeads Reference.driver
    [("status", VStr "Bogus"); ("salesAgent", VStr "42"); ("source", VStr "Fax")]
    (Reference.world Reference.db1 0)
  = (Reference.world Reference.db1 0,
     Throw (Tagged "INVALID_INPUT"
              ("Invalid input: " ++ msg_salesAgent ++ msg_status ++ msg_source))).
Proof.
  apply (getAllLeads_rejects_invalid_filters Reference.driver
           [("status", VStr "Bogus"); ("salesAgent", VStr "42"); ("source", VStr "Fax")]
           (Reference.world Reference.db1 0)).
  reflexivity.
Defined.

(* ------------------------------------------------------------------ *)
(** ** C4: the list operations and the empty result set *)

Lemma listed_NotFound_iff_empty {A} (rs : list A) (m : string) :
  (exists e, listed rs m = Throw e) <-> rs = [].
Proof.
  destruct rs; simpl; split; intros H.
  - reflexivity.
  - eexists; reflexivity.
  - destruct H as [e H]. discriminate H.
  - discriminate H.
Qed.

(** The shape shared by the list operations: query, then NOT_FOUND on an
    empty result set and the result set itself otherwise. *)
Lemma query_then_listed {A} (D : Driver) (c : Call) (sem : Db -> Db * Result (list A))
    (m : string) (w : World) (rs : list A) :
  answer D c sem (db w) = Ok rs ->
  snd (try_catch
         (found <- store_call D c sem ;;
          if negb (List.length found =? 0)%nat then ret found
          else throw (Tagged "NOT_FOUND" m))
         (fun error => throw error) w)
  = listed rs m.
Proof.
  intros Hans. apply answer_Ok in Hans. destruct Hans as [Hf Hsem].
  unfold try_catch, bind. rewrite (store_call_answers D c sem w Hf).
  rewrite Hsem. destruct rs; reflexivity.
Qed.

Lemma getAllLeads_listed (D : Driver) (w : World) (q : Obj) (rs : list LeadView) :
  bad_salesAgent D truthy q || bad_status truthy q || bad_source truthy q = false ->
  answer D (CLead_find_populate q) (sem_Lead_find_populate D q) (db w) = Ok rs ->
  snd (getAllLeads D q w) = listed rs "Lead Data Not Found.".
Proof.
  intros Hbad Hans. revert Hbad.
  unfold bad_salesAgent, bad_status, bad_source, getAllLeads.
  generalize (truthy (get "salesAgent" q)), (isValid D (get "salesAgent" q)),
    (truthy (get "status" q)), (includes validStatuses (get "status" q)),
    (truthy (get "source" q)), (includes validSources (get "source" q)).
  intros [] [] [] [] [] [] Hbad; simpl in Hbad; try discriminate Hbad; simpl;
    change (negb ("Invalid input: " =? "Invalid input: ")%string) with false;
    cbv iota; unfold Lead_find_populate;
    exact (query_then_listed D _ _ _ w Hans).
Qed.

Lemma getAllSalesAgents_listed (D : Driver) (w : World) (rs : list SalesAgent) :
  answer D CSalesAgent_find sem_SalesAgent_find (db w) = Ok rs ->
  snd (getAllSalesAgents D w) = listed rs "Sales Agents Not Found.".
Proof.
  intros Hans. unfold getAllSalesAgents, SalesAgent_find.
  exact (query_then_listed D _ _ _ w Hans).
Qed.

Lemma getAllComments_listed (D : Driver) (w : World) (leadId : jsval)
    (rs : list CommentView) :
  isValid D leadId = true ->
  answer D (CComment_find_populate leadId)
    (sem_Comment_find_populate D leadId) (db w) = Ok rs ->
  snd (getAllComments D leadId w)
  = listed rs ("Comments for lead ID '" ++ js_to_string leadId ++ "' not found.").
Proof.
  intros Hv Hans. unfold getAllComments, Comment_find_populate. rewrite Hv.
  change (negb true) with false. cbv iota.
  exact (query_then_listed D _ _ _ w Hans).
Qed.

Lemma getAllTags_listed (D : Driver) (w : World) (rs : list Tag) :
  answer D CTag_find sem_Tag_find (db w) = Ok rs ->
  snd (getAllTags D w) = listed rs "No Tags Found.".
Proof.
  intros Hans. unfold getAllTags, Tag_find.
  exact (query_then_listed D _ _ _ w Hans).
Qed.

(** C4.  Once List Leads, List Agents, List Comments or List Tags has reached
    its query and the store has answered with the result set [rs], the
    outcome is NOT_FOUND exactly when [rs] is empty and otherwise [rs]
    itself, in the order the store returned it. *)
Theorem list_operations_NotFound_iff_empty :
  forall (D : Driver) (w : World),
    (forall (q : Obj) (rs : list LeadView),
        bad_salesAgent D truthy q || bad_status truthy q || bad_source truthy q = false ->
        answer D (CLead_find_populate q) (sem_Lead_find_populate D q) (db w) = Ok rs ->
        snd (getAllLeads D q w) = listed rs "Lead Data Not Found."
        /\ ((exists e, snd (getAllLeads D q w) = Throw e) <-> rs = []))
    /\ (forall rs : list SalesAgent,
           answer D CSalesAgent_find sem_SalesAgent_find (db w) = Ok rs ->
           snd (getAllSalesAgents D w) = listed rs "Sales Agents Not Found."
           /\ ((exists e, snd (getAllSalesAgents D w) = Throw e) <-> rs = []))
    /\ (forall (leadId : jsval) (rs : list CommentView),
           isValid D leadId = true ->
           answer D (CComment_find_populate leadId)
             (sem_Comment_find_populate D leadId) (db w) = Ok rs ->
           snd (getAllComments D leadId w)
           = listed rs ("Comments for lead ID '" ++ js_to_string leadId ++ "' not found.")
           /\ ((exists e, snd (getAllComments D leadId w) = Throw e) <-> rs = []))
    /\ (forall rs : list Tag,
           answer D CTag_find sem_Tag_find (db w) = Ok rs ->
           snd (getAllTags D w) = listed rs "No Tags Found."
           /\ ((exists e, snd (getAllTags D w) = Throw e) <-> rs = [])).
Proof.
  intros D w. split; [| split; [| split]].
  - intros q rs Hbad Hans.
    rewrite (getAllLeads_listed D w q Hbad Hans).
    split; [reflexivity | apply listed_NotFound_iff_empty].
  - intros rs Hans. rewrite (getAllSalesAgents_listed D w Hans).
    split; [reflexivity | apply listed_NotFound_iff_empty].
  - intros leadId rs Hv Hans. rewrite (getAllComments_listed D w leadId Hv Hans).
    split; [reflexivity | apply listed_NotFound_iff_empty].
  - intros rs Hans. rewrite (getAllTags_listed D w Hans).
    split; [reflexivity | apply listed_NotFound_iff_empty].
Qed.

Lemma list_operations_NotFound_iff_empty_witness :
  snd (getAllLeads Reference.driver [("status", VStr "New")]
         (Reference.world Reference.db1 0))
  = Ok [mkLeadView Reference.lead1
          (Some ("64b0c0ffee0000000000a001", VStr "Asha"))]
  /\ snd (getAllSalesAgents Reference.driver (Reference.world Reference.db1 0))
     = Ok [Reference.agent1]
  /\ snd (getAllComments Reference.driver (VStr "64b0c0ffee0000000000b001")
            (Reference.world Reference.db1 0))
     = Throw (Tagged "NOT_FOUND"
                "Comments for lead ID '64b0c0ffee0000000000b001' not found.")
  /\ snd (getAllTags Reference.driver (Reference.world Reference.db1 0))
     = Throw (Tagged "NOT_FOUND" "No Tags Found.").
Proof.
  pose proof (list_operations_NotFound_iff_empty Reference.driver
                (Reference.world Reference.db1 0)) as (HL & HA & HC & HT).
  split; [| split; [| split]].
  - apply (HL [("status", VStr "New")]
              [mkLeadView Reference.lead1
                 (Some ("64b0c0ffee0000000000a001", VStr "Asha"))]);
      reflexivity.
  - apply (HA [Reference.agent1]); reflexivity.
  - apply (HC (VStr "64b0c0ffee0000000000b001") []); reflexivity.
  - apply (HT []); reflexivity.
Defined.

(* ------------------------------------------------------------------ *)
(** ** C5: errors of the persistence layer that no operation classifies *)

(** An error that Add Tag does not classify leaves it as it was raised; the
    other operations with a final [throw error] behave alike. *)
Lemma addNewTag_propagates :
  forall (D : Driver) (tagObj : Obj) (w : World) (e : LibErr),
    fault D (CTag_save (mkTag (newId D (next w)) (get "name" tagObj))) (db w) = Some e ->
    name_is (Lib e) "ValidationError" = false ->
    name_is (Lib e) "MongoServerError" && code_is (Lib e) 11000 = false ->
    snd (addNewTag D tagObj w) = Throw (Lib e).
Proof.
  intros D tagObj w e Hf Hn Hc. unfold addNewTag, Tag_save. run_op.
  unfold store_call. simpl. rewrite Hf. simpl in *. rewrite Hn. rewrite Hc.
  reflexivity.
Qed.

Lemma createNewLead_propagates :
  forall (D : Driver) (leadDetails : Obj) (w : World) (e : LibErr),
    isValid D (get "salesAgent" leadDetails) = true ->
    fault D (CSalesAgent_findById (get "salesAgent" leadDetails)) (db w) = Some e ->
    name_is (Lib e) "ValidationError" = false ->
    snd (createNewLead D leadDetails w) = Throw (Lib e).
Proof.
  intros D leadDetails w e Hv Hf Hn. unfold createNewLead, SalesAgent_findById.
  run_op. rewrite Hv. simpl. unfold store_call. rewrite Hf. simpl in *.
  rewrite Hn. reflexivity.
Qed.

(** C5.  Create Agent does not re-raise an error it does not classify: when
    the persistence layer fails with an error that is neither a
    ValidationError nor carries code 11000, the operation ends normally and
    returns nothing, and POST /agents then sends no response at all. *)
Theorem createNewSalesAgent_swallows_unclassified_error :
  forall (agentData : Obj) (w : World),
    name_is (Lib Reference.NetworkError) "ValidationError" = false
    /\ code_is (Lib Reference.NetworkError) 11000 = false
    /\ snd (createNewSalesAgent (Reference.failing Reference.NetworkError) agentData w)
       = Ok None
    /\ snd (post_agents (Reference.failing Reference.NetworkError) agentData w) = None
    /\ snd (addNewTag (Reference.failing Reference.NetworkError) agentData w)
       = Throw (Lib Reference.NetworkError).
Proof.
  intros agentData w. repeat split.
Qed.

(* ------------------------------------------------------------------ *)
(** ** C6: the status code of a failure *)

(** The handlers that have a [default] branch answer 500 to a failure of any
    type they do not list. *)
Lemma post_leads_unmapped_is_500 :
  forall (D : Driver) (body : Obj) (w : World) (e : LibErr),
    snd (createNewLead D body w) = Throw (Lib e) ->
    snd (post_leads D body w) = reply 500 (JError "Server Error.").
Proof.
  intros D body w e H. unfold post_leads.
  destruct (createNewLead D body w) as [w' r]. simpl in H. subst r.
  reflexivity.
Qed.

(** C6.  GET /leads and POST /leads/:id/comments have no [default] branch:
    when the store call of List Leads, or the lookup of Add Comment, fails
    with an error of the persistence layer, the operation rethrows it, no
    [case] matches and the handler ends without sending a response, where
    POST /leads answers 500 to the same failure. *)
Theorem get_leads_and_post_comments_unmapped_failure_unanswered :
  forall (w : World),
    snd (getAllLeads (Reference.failing Reference.NetworkError) [] w)
    = Throw (Lib Reference.NetworkError)
    /\ snd (get_leads (Reference.failing Reference.NetworkError) [] w) = None
    /\ snd (addComments (Reference.failing Reference.NetworkError)
              (VStr "64b0c0ffee0000000000b001")
              [("commentText", VStr "call back");
               ("author", VStr "64b0c0ffee0000000000a001")] w)
       = Throw (Lib Reference.NetworkError)
    /\ snd (post_leads_id_comments (Reference.failing Reference.NetworkError)
              "64b0c0ffee0000000000b001"
              [("commentText", VStr "call back");
               ("author", VStr "64b0c0ffee0000000000a001")] w) = None
    /\ snd (post_leads (Reference.failing Reference.NetworkError)
              [("salesAgent", VStr "64b0c0ffee0000000000a001")] w)
       = reply 500 (JError "Server Error.").
Proof.
  intros w. repeat split.
Qed.

(* ------------------------------------------------------------------ *)
(** ** C7: the failures of Add Comment *)



(* ------------------------------------------------------------------ *)
(** ** C10: Add Comment does not resolve the author *)

(** C10.  With leadId and author valid and the Lead found, Add Comment
    persists the comment whatever the author refers to: when the store
    accepts the document, and in particular when no agent has the author's
    identifier, the call succeeds, the comment is appended to the collection
    with that author, the agents are as before, and the only calls made are
    the lookup of the Lead and the save, none on the agents. *)
Theorem addComments_persists_without_author_lookup :
  forall (D : Driver) (leadId : jsval) (commentData : Obj) (w : World) (lead : Lead),
    isValid D leadId = true ->
    isValid D (get "author" commentData) = true ->
    answer D (CLead_findById leadId) (sem_Lead_findById D leadId) (db w)
    = Ok (Some lead) ->
    by_id D agent_id (get "author" commentData) (agents (db w)) = Ok None ->
    fault D (CComment_save
               (new_Comment (newId D (next w)) leadId (get "commentText" commentData)
                  (get "author" commentData) (now w))) (db w) = None ->
    comment_errors D
      (new_Comment (newId D (next w)) leadId (get "commentText" commentData)
         (get "author" commentData) (now w)) = [] ->
    exists w' c,
      addComments D leadId commentData w = (w', Ok c)
      /\ comment_author c = get "author" commentData
      /\ comments (db w') = (comments (db w) ++ [c])%list
      /\ agents (db w') = agents (db w)
      /\ by_id D agent_id (comment_author c) (agents (db w')) = Ok None
      /\ log w' = (log w ++ [CLead_findById leadId; CComment_save c])%list.
Proof.
  intros D leadId commentData w lead Hl Ha Hans Hnone Hf2 Hval.
  apply answer_Ok in Hans. destruct Hans as [Hf Hsem].
  unfold addComments, Lead_findById, Comment_save. run_op. rewrite Hl, Ha. simpl.
  rewrite (store_call_answers D _ _ w Hf). rewrite Hsem. simpl.
  unfold store_call. simpl. rewrite Hf2. unfold sem_Comment_save. rewrite Hval.
  simpl. eexists. eexists. split; [reflexivity |]. simpl.
  repeat split; auto. rewrite <- app_assoc. reflexivity.
Qed.

Lemma addComments_persists_without_author_lookup_witness :
  exists w' c,
    addComments Reference.driver (VStr "64b0c0ffee0000000000b001")
      [("commentText", VStr "call back");
       ("author", VStr "64b0c0ffee0000000000a0ff")]
      (Reference.world Reference.db1 7)
    = (w', Ok c)
    /\ comment_author c = VStr "64b0c0ffee0000000000a0ff"
    /\ comments (db w') = [c]
    /\ agents (db w') = [Reference.agent1]
    /\ by_id Reference.driver agent_id (comment_author c) (agents (db w')) = Ok None
    /\ log w' = [CLead_findById (VStr "64b0c0ffee0000000000b001"); CComment_save c].
Proof.
  apply (addComments_persists_without_author_lookup Reference.driver
           (VStr "64b0c0ffee0000000000b001")
           [("commentText", VStr "call back");
            ("author", VStr "64b0c0ffee0000000000a0ff")]
           (Reference.world Reference.db1 7) (lead := Reference.lead1));
    reflexivity.
Defined.

(* ------------------------------------------------------------------ *)
(** ** C8: Update Lead merges the supplied fields *)









(** A supplied value that cannot be cast makes the update fail with its
    CastError: Update Lead rethrows it and the store is as before. *)
Lemma updateLead_uncastable_is_CastError :
  exists w',
    updateLead Reference.driver (VStr "64b0c0ffee0000000000b001")
      [("timeToClose", VStr "soon")] (Reference.world Reference.db1 0)
    = (w', Throw (Lib CastError))
    /\ db w' = Reference.db1.
Proof. eexists. split; reflexivity. Qed.

(** The update of the witness returns the number 12 for the string "12" and
    the string "7" for the number 7. *)
Lemma updateLead_casts_supplied_values :
  exists w' u,
    updateLead Reference.driver (VStr "64b0c0ffee0000000000b001")
      [("timeToClose", VStr "12"); ("name", VNum 7)]
      (Reference.world Reference.db1 0)
    = (w', Ok (Some u))
    /\ lead_timeToClose u = VNum 12
    /\ lead_name u = VStr "7"
    /\ lead_source u = VStr "Website".
Proof.
  eexists. eexists. split; [vm_compute; reflexivity |]. repeat split.
Qed.

(* ------------------------------------------------------------------ *)
(** ** C9: Leads Closed Last Week *)

(** Update Lead sets closedAt to whatever date it is given, also one that
    lies after the current time. *)
Lemma updateLead_sets_later_closedAt :
  fst (updateLead Reference.driver (VStr "64b0c0ffee0000000000b002")
         [("closedAt", VNum 2000000000000)]
         (Reference.world Reference.db2_before 1700000000000))
  = mkWorld Reference.db2
      [CLead_findById (VStr "64b0c0ffee0000000000b002");
       CLead_findByIdAndUpdate (VStr "64b0c0ffee0000000000b002")
         [("closedAt", VNum 2000000000000)]]
      1700000000000 0.
Proof. reflexivity. Qed.

(** The wording of C9 fails on a Lead whose closedAt lies after the current
    time: the query has a lower bound only, so the Lead is returned although
    its closedAt is not within the seven days up to now. *)
Lemma leadsClosedLastWeek_returns_later_closedAt :
  ~ ClosedLastWeek_as_stated Reference.driver
      (Reference.world Reference.db2 1700000000000).
Proof.
  unfold ClosedLastWeek_as_stated. intros H. specialize (H eq_refl).
  vm_compute in H. discriminate H.
Qed.

Lemma closedAt_gte_spec (since : Z) (l : Lead) :
  closedAt_gte since l = true <-> exists c, lead_closedAt l = VNum c /\ since <= c.
Proof.
  unfold closedAt_gte. split.
  - destruct (lead_closedAt l); try discriminate.
    intros H. apply Z.leb_le in H. eauto.
  - intros (c & -> & H). apply Z.leb_le. exact H.
Qed.

Lemma sevenDaysBefore_le (D : Driver) (t : Z) : sevenDaysBefore D t <= t.
Proof.
  unfold sevenDaysBefore, UTC, LocalTime, tza, msPerDay. lia.
Qed.

Lemma sevenDaysBefore_same_offset (D : Driver) (t : Z) :
  tza D (LocalTime D t - 7 * msPerDay) false = tza D t true ->
  sevenDaysBefore D t = t - 604800000.
Proof.
  unfold sevenDaysBefore, UTC. intros ->. unfold LocalTime, msPerDay. lia.
Qed.

(** C9, amended.  Leads Closed Last Week returns, in store order, exactly
    the Leads whose closedAt is a date not earlier than the instant
    [setDate(getDate() - 7)] gives for the current time, with no upper
    bound, and fails with NOT_FOUND exactly when there is none.  That
    instant is the one at which the host's clock showed the current time of
    day seven calendar days ago: the current time minus seven times 24
    hours (604800000 ms) whenever the offset of the host's time zone is the
    same at both instants. *)
Theorem leadsClosedLastWeek_returns_closed_since :
  forall (D : Driver) (w : World),
    fault D (CLead_find_closedAt_gte (sevenDaysBefore D (now w))) (db w) = None ->
    exists rs : list Lead,
      snd (leadsClosedLastWeek D w)
      = listed rs "No Closed Leads for Last Week found."
      /\ rs = filter (closedAt_gte (sevenDaysBefore D (now w))) (leads (db w))
      /\ (forall l, In l rs <->
                    In l (leads (db w))
                    /\ exists c, lead_closedAt l = VNum c
                                 /\ sevenDaysBefore D (now w) <= c)
      /\ ((exists e, snd (leadsClosedLastWeek D w) = Throw e) <-> rs = [])
      /\ (tza D (LocalTime D (now w) - 7 * msPerDay) false = tza D (now w) true ->
          sevenDaysBefore D (now w) = now w - 604800000).
Proof.
  intros D w Hf.
  assert (Hrun : snd (leadsClosedLastWeek D w)
                 = listed (filter (closedAt_gte (sevenDaysBefore D (now w)))
                             (leads (db w)))
                     "No Closed Leads for Last Week found.").
  { unfold leadsClosedLastWeek, Lead_find_closedAt_gte. run_op.
    rewrite (store_call_answers D _ _ w Hf). simpl.
    destruct (filter _ _); reflexivity. }
  eexists. split; [exact Hrun |]. split; [reflexivity |]. split; [| split].
  - intros l. rewrite filter_In. rewrite closedAt_gte_spec. reflexivity.
  - rewrite Hrun. apply listed_NotFound_iff_empty.
  - apply sevenDaysBefore_same_offset.
Qed.

Lemma leadsClosedLastWeek_returns_closed_since_witness :
  exists rs : list Lead,
    snd (leadsClosedLastWeek Reference.driver
           (Reference.world Reference.db2 2000000000500))
    = listed rs "No Closed Leads for Last Week found."
    /\ rs = filter (closedAt_gte (sevenDaysBefore Reference.driver 2000000000500))
              [Reference.lead1; Reference.lead2]
    /\ (forall l, In l rs <->
                  In l [Reference.lead1; Reference.lead2]
                  /\ exists c, lead_closedAt l = VNum c
                               /\ sevenDaysBefore Reference.driver 2000000000500 <= c)
    /\ ((exists e, snd (leadsClosedLastWeek Reference.driver
                          (Reference.world Reference.db2 2000000000500)) = Throw e)
        <-> rs = [])
    /\ (tza Reference.driver
           (LocalTime Reference.driver 2000000000500 - 7 * msPerDay) false
         = tza Reference.driver 2000000000500 true ->
        sevenDaysBefore Reference.driver 2000000000500 = 2000000000500 - 604800000).
Proof.
  apply (leadsClosedLastWeek_returns_closed_since Reference.driver
           (Reference.world Reference.db2 2000000000500)).
  reflexivity.
Defined.

(** On a host in Europe/Berlin, three days after the clock went forward, the
    bound is an hour later than seven times 24 hours before the call: a Lead
    closed 6 days 23 hours 30 minutes before the call is left out there,
    and returned on a host on UTC. *)
Lemma leadsClosedLastWeek_follows_the_local_calendar :
  sevenDaysBefore Reference.in_berlin 1680091200000
  = 1680091200000 - 604800000 + 3600000
  /\ snd (leadsClosedLastWeek Reference.in_berlin
            (Reference.world Reference.db3 1680091200000))
     = Ok [Reference.lead4]
  /\ snd (leadsClosedLastWeek Reference.driver
            (Reference.world Reference.db3 1680091200000))
     = Ok [Reference.lead3; Reference.lead4].
Proof. repeat split. Qed.

(* ------------------------------------------------------------------ *)
(** ** Delete Lead *)

Lemma deleteLead_absent (D : Driver) (leadId : jsval) (w : World) :
  isValid D leadId = true ->
  answer D (CLead_findById leadId) (sem_Lead_findById D leadId) (db w) = Ok None ->
  exists w',
    deleteLead D leadId w =
      (w', Throw (Tagged "NOT_FOUND"
                    ("Lead with ID '" ++ js_to_string leadId ++ "' not found.")))
    /\ db w' = db w
    /\ log w' = (log w ++ [CLead_findById leadId])%list.
Proof.
  intros Hv Hans. apply answer_Ok in Hans. destruct Hans as [Hf Hsem].
  unfold deleteLead, Lead_findById. run_op. rewrite Hv. simpl.
  rewrite (store_call_answers D _ _ w Hf). rewrite Hsem. simpl.
  eexists. split; [reflexivity |]. simpl. auto.
Qed.

Lemma deleteLead_found (D : Driver) (leadId : jsval) (w : World) (prior : Lead) :
  isValid D leadId = true ->
  answer D (CLead_findById leadId) (sem_Lead_findById D leadId) (db w)
  = Ok (Some prior) ->
  fault D (CLead_findByIdAndDelete leadId) (db w) = None ->
  exists w',
    deleteLead D leadId w = (w', Ok (Some "Lead deleted Successfully."))
    /\ leads (db w') = remove_first (lead_id prior) (leads (db w))
    /\ agents (db w') = agents (db w)
    /\ comments (db w') = comments (db w)
    /\ tags (db w') = tags (db w)
    /\ log w' = (log w ++ [CLead_findById leadId; CLead_findByIdAndDelete leadId])%list.
Proof.
  intros Hv Hans Hf2. apply answer_Ok in Hans.
  destruct Hans as [Hf Hsem]. simpl in Hsem. unfold by_id in Hsem.
  destruct (castId D leadId) as [i |] eqn:Hcast; [| discriminate Hsem].
  injection Hsem as Hfind.
  pose proof Hfind as Hid. apply find_id_eq in Hid. destruct Hid as [Hid _].
  unfold deleteLead, Lead_findById, Lead_findByIdAndDelete. run_op.
  rewrite Hv. simpl. rewrite (store_call_answers D _ _ w Hf). simpl.
  unfold by_id. rewrite Hcast, Hfind. simpl.
  unfold store_call. simpl. rewrite Hf2.
  unfold sem_Lead_findByIdAndDelete. rewrite Hcast, Hfind. simpl.
  eexists. split; [reflexivity |]. simpl. rewrite Hid.
  repeat split. rewrite <- app_assoc. reflexivity.
Qed.

(** X1.  Delete Lead with an id that is no valid identifier fails with
    INVALID_ID_FORMAT and makes no call to the store; with a valid id for
    which the store answers that no Lead exists it fails with NOT_FOUND
    naming the id, the store is as before and the lookup is the only call:
    no delete is issued. *)
Theorem deleteLead_failures :
  forall (D : Driver) (leadId : jsval) (w : World),
    (isValid D leadId = false ->
     deleteLead D leadId w =
       (w, Throw (Tagged "INVALID_ID_FORMAT" "Invalid Lead ID.")))
    /\ (isValid D leadId = true ->
        answer D (CLead_findById leadId) (sem_Lead_findById D leadId) (db w) = Ok None ->
        exists w',
          deleteLead D leadId w =
            (w', Throw (Tagged "NOT_FOUND"
                          ("Lead with ID '" ++ js_to_string leadId ++ "' not found.")))
          /\ db w' = db w
          /\ log w' = (log w ++ [CLead_findById leadId])%list).
Proof.
  intros D leadId w. split.
  - intros Hv. unfold deleteLead. run_op. rewrite Hv. reflexivity.
  - intros Hv Hans. exact (deleteLead_absent D leadId w Hv Hans).
Qed.

Lemma deleteLead_failures_witness :
  deleteLead Reference.driver (VStr "42") (Reference.world Reference.db1 0)
  = (Reference.world Reference.db1 0,
     Throw (Tagged "INVALID_ID_FORMAT" "Invalid Lead ID."))
  /\ exists w',
       deleteLead Reference.driver (VStr "64b0c0ffee0000000000b009")
         (Reference.world Reference.db1 0)
       = (w', Throw (Tagged "NOT_FOUND"
                       "Lead with ID '64b0c0ffee0000000000b009' not found."))
       /\ db w' = Reference.db1
       /\ log w' = [CLead_findById (VStr "64b0c0ffee0000000000b009")].
Proof.
  split.
  - apply (proj1 (deleteLead_failures Reference.driver (VStr "42")
                    (Reference.world Reference.db1 0))).
    reflexivity.
  - apply (proj2 (deleteLead_failures Reference.driver
                    (VStr "64b0c0ffee0000000000b009")
                    (Reference.world Reference.db1 0)));
      reflexivity.
Defined.

Lemma remove_first_split (i : Id) (ls : list Lead) (prior : Lead) :
  find (fun a => (lead_id a =? i)%string) ls = Some prior ->
  exists before after,
    ls = (before ++ prior :: after)%list
    /\ (forall x, In x before -> lead_id x <> i)
    /\ remove_first i ls = (before ++ after)%list.
Proof.
  induction ls as [| x rest IH]; simpl; intros Hfind.
  - discriminate Hfind.
  - destruct (String.eqb_spec (lead_id x) i) as [Heq | Hne].
    + injection Hfind as <-. exists [], rest. simpl.
      split; [reflexivity |]. split; [intros y [] | reflexivity].
    + destruct (IH Hfind) as (before & after & Hls & Hbefore & Hrem).
      exists (x :: before), after. simpl.
      split; [rewrite Hls; reflexivity |].
      split; [| rewrite Hrem; reflexivity].
      intros y [<- | Hy]; [exact Hne | exact (Hbefore y Hy)].
Qed.

(** X2.  Delete Lead on a Lead the store finds, with the delete accepted,
    returns the success message and takes exactly that Lead out of the
    collection: the collection was some Leads with other identifiers, then
    the Lead, then the rest, and it becomes those Leads followed by the
    rest, in their order.  The agents, the tags and also the comments are
    as they were: the comments written on the Lead are not deleted with
    it. *)
Theorem deleteLead_removes_only_the_lead :
  forall (D : Driver) (leadId : jsval) (w : World) (prior : Lead),
    isValid D leadId = true ->
    answer D (CLead_findById leadId) (sem_Lead_findById D leadId) (db w)
    = Ok (Some prior) ->
    fault D (CLead_findByIdAndDelete leadId) (db w) = None ->
    exists w' before after,
      deleteLead D leadId w = (w', Ok (Some "Lead deleted Successfully."))
      /\ leads (db w) = (before ++ prior :: after)%list
      /\ (forall x, In x before -> lead_id x <> lead_id prior)
      /\ leads (db w') = (before ++ after)%list
      /\ agents (db w') = agents (db w)
      /\ comments (db w') = comments (db w)
      /\ tags (db w') = tags (db w)
      /\ log w' = (log w ++ [CLead_findById leadId; CLead_findByIdAndDelete leadId])%list.
Proof.
  intros D leadId w prior Hv Hans Hf2.
  destruct (deleteLead_found D leadId w Hv Hans Hf2)
    as (w' & Hrun & Hleads & Hagents & Hcomments & Htags & Hlog).
  apply answer_Ok in Hans. destruct Hans as [_ Hsem]. simpl in Hsem.
  unfold by_id in Hsem.
  destruct (castId D leadId) as [i |]; [| discriminate Hsem].
  injection Hsem as Hfind.
  pose proof Hfind as Hid. apply find_id_eq in Hid. destruct Hid as [Hid _].
  apply remove_first_split in Hfind.
  destruct Hfind as (before & after & Hls & Hbefore & Hrem).
  exists w', before, after. rewrite Hid.
  split; [exact Hrun |]. split; [exact Hls |]. split; [exact Hbefore |].
  split; [rewrite Hleads, Hid; exact Hrem |]. auto.
Qed.

Lemma deleteLead_removes_only_the_lead_witness :
  exists w' before after,
    deleteLead Reference.driver (VStr "64b0c0ffee0000000000b002")
      (Reference.world Reference.db2 0)
    = (w', Ok (Some "Lead deleted Successfully."))
    /\ leads Reference.db2 = (before ++ Reference.lead2 :: after)%list
    /\ (forall x, In x before -> lead_id x <> lead_id Reference.lead2)
    /\ leads (db w') = (before ++ after)%list
    /\ agents (db w') = agents Reference.db2
    /\ comments (db w') = comments Reference.db2
    /\ tags (db w') = tags Reference.db2
    /\ log w' = [CLead_findById (VStr "64b0c0ffee0000000000b002");
                 CLead_findByIdAndDelete (VStr "64b0c0ffee0000000000b002")].
Proof.
  apply (@deleteLead_removes_only_the_lead Reference.driver
           (VStr "64b0c0ffee0000000000b002") (Reference.world Reference.db2 0)
           Reference.lead2);
    reflexivity.
Defined.

(** In the store of the witness the other Lead stays. *)
Lemma deleteLead_keeps_the_other_lead :
  leads (db (fst (deleteLead Reference.driver (VStr "64b0c0ffee0000000000b002")
                    (Reference.world Reference.db2 0))))
  = [Reference.lead1].
Proof. reflexivity. Qed.

Lemma find_remove_first (i : Id) (ls : list Lead) :
  NoDup (map lead_id ls) ->
  find (fun a => (lead_id a =? i)%string) (remove_first i ls) = None.
Proof.
  induction ls as [| x rest IH]; simpl; intros Hnd.
  - reflexivity.
  - inversion Hnd as [| ? ? Hnotin Hrest]; subst.
    destruct (lead_id x =? i)%string eqn:Hx.
    + apply String.eqb_eq in Hx.
      destruct (find (fun a => (lead_id a =? i)%string) rest) as [a |] eqn:Hfind;
        [| reflexivity].
      exfalso. apply find_id_eq in Hfind. destruct Hfind as [Ha Hin].
      apply Hnotin. rewrite Hx, <- Ha. apply in_map. exact Hin.
    + simpl. rewrite Hx. apply IH. exact Hrest.
Qed.

(** X3.  Where the identifiers of the stored Leads are distinct and the
    persistence layer raises no error, a Lead that Delete Lead has deleted
    is gone: deleting the same id again fails with NOT_FOUND. *)
Theorem deleteLead_twice_is_NotFound :
  forall (D : Driver) (leadId : jsval) (w w' : World) (m : string),
    no_faults D ->
    NoDup (map lead_id (leads (db w))) ->
    deleteLead D leadId w = (w', Ok (Some m)) ->
    snd (deleteLead D leadId w')
    = Throw (Tagged "NOT_FOUND"
               ("Lead with ID '" ++ js_to_string leadId ++ "' not found.")).
Proof.
  intros D leadId w w' m Hnf Hnd Hrun.
  assert (Hv : isValid D leadId = true).
  { unfold deleteLead in Hrun. run_op.
    destruct (isValid D leadId); [reflexivity |].
    unfold try_catch, throw in Hrun. simpl in Hrun. discriminate Hrun. }
  destruct (answer D (CLead_findById leadId) (sem_Lead_findById D leadId) (db w))
    as [[prior |] | e] eqn:Hans.
  - destruct (deleteLead_found D leadId w Hv Hans
                (Hnf _ _)) as (w1 & Hrun1 & Hleads & _).
    rewrite Hrun in Hrun1. injection Hrun1 as <- _.
    apply answer_Ok in Hans. destruct Hans as [_ Hsem]. simpl in Hsem.
    unfold by_id in Hsem.
    destruct (castId D leadId) as [i |] eqn:Hcast; [| discriminate Hsem].
    injection Hsem as Hfind.
    pose proof Hfind as Hid. apply find_id_eq in Hid. destruct Hid as [Hid _].
    destruct (deleteLead_absent D leadId w' Hv) as (w2 & Hrun2 & _).
    + unfold answer. rewrite (Hnf _ _). simpl. unfold by_id. rewrite Hcast.
      rewrite Hleads, Hid. rewrite find_remove_first by exact Hnd. reflexivity.
    + rewrite Hrun2. reflexivity.
  - destruct (deleteLead_absent D leadId w Hv Hans) as (w1 & Hrun1 & _).
    rewrite Hrun in Hrun1. discriminate Hrun1.
  - exfalso. unfold answer in Hans. rewrite (Hnf _ _) in Hans. simpl in Hans.
    unfold deleteLead, Lead_findById in Hrun. revert Hrun. run_op. rewrite Hv.
    simpl. rewrite (store_call_answers D _ _ w (Hnf _ _)). simpl.
    rewrite Hans. simpl. discriminate.
Qed.

Lemma deleteLead_twice_is_NotFound_witness :
  snd (deleteLead Reference.driver (VStr "64b0c0ffee0000000000b001")
         (fst (deleteLead Reference.driver (VStr "64b0c0ffee0000000000b001")
                 (Reference.world Reference.db2 0))))
  = Throw (Tagged "NOT_FOUND" "Lead with ID '64b0c0ffee0000000000b001' not found.").
Proof.
  apply (@deleteLead_twice_is_NotFound Reference.driver
           (VStr "64b0c0ffee0000000000b001") (Reference.world Reference.db2 0)
           _ "Lead deleted Successfully.").
  - intros c d. reflexivity.
  - simpl. repeat constructor; simpl; intuition discriminate.
  - reflexivity.
Defined.

(* ------------------------------------------------------------------ *)
(** ** Pipeline Count *)

(** X4.  When the store answers the query, Pipeline Count returns the number
    of Leads whose status is not Closed if there is at least one, and fails
    with NOT_FOUND if there is none: it never returns zero.  GET
    /report/pipeline answers 200 with the count, or 404; the store is left as
    it was. *)
Theorem getTotalLeadsInPipeline_counts_open_leads :
  forall (D : Driver) (w : World),
    fault D (CLead_find_status_ne "Closed") (db w) = None ->
    snd (getTotalLeadsInPipeline D w)
    = (if (List.length (filter in_pipeline (leads (db w))) =? 0)%nat
       then Throw (Tagged "NOT_FOUND" "No Leads Found.")
       else Ok (List.length (filter in_pipeline (leads (db w)))))
    /\ snd (get_report_pipeline D w)
       = (if (List.length (filter in_pipeline (leads (db w))) =? 0)%nat
          then reply 404 (JError "No Leads Found.")
          else reply 200 (JTotal (List.length (filter in_pipeline (leads (db w))))))
    /\ snd (getTotalLeadsInPipeline D w) <> Ok 0%nat
    /\ db (fst (getTotalLeadsInPipeline D w)) = db w.
Proof.
  intros D w Hf.
  unfold get_report_pipeline, getTotalLeadsInPipeline, Lead_find_status_ne.
  run_op. rewrite (store_call_answers D _ _ w Hf). simpl.
  change (fun l : Lead => negb (is_str (lead_status l) "Closed")) with in_pipeline.
  destruct (filter in_pipeline (leads (db w))); simpl;
    repeat split; discriminate.
Qed.

Lemma getTotalLeadsInPipeline_counts_open_leads_witness :
  snd (getTotalLeadsInPipeline Reference.driver (Reference.world Reference.db2 0))
  = Ok 1%nat
  /\ snd (get_report_pipeline Reference.driver (Reference.world Reference.db2 0))
     = reply 200 (JTotal 1)
  /\ snd (getTotalLeadsInPipeline Reference.driver (Reference.world Reference.db2 0))
     <> Ok 0%nat
  /\ db (fst (getTotalLeadsInPipeline Reference.driver
                (Reference.world Reference.db2 0))) = Reference.db2.
Proof.
  apply (getTotalLeadsInPipeline_counts_open_leads Reference.driver
           (Reference.world Reference.db2 0)).
  reflexivity.
Defined.

(* ------------------------------------------------------------------ *)
(** ** Create Lead: the paths that reach [save] *)


Lemma createNewLead_reaches_save (D : Driver) (leadDetails : Obj) (w : World)
    (agent : SalesAgent) :
  isValid D (get "salesAgent" leadDetails) = true ->
  answer D (CSalesAgent_findById (get "salesAgent" leadDetails))
    (sem_SalesAgent_findById D (get "salesAgent" leadDetails)) (db w)
  = Ok (Some agent) ->
  fault D (CLead_save (built_Lead D leadDetails agent w)) (db w) = None ->
  createNewLead D leadDetails w =
    let doc := built_Lead D leadDetails agent w in
    let w1 := mkWorld (fst (sem_Lead_save D doc (db w)))
                (log w ++ [CSalesAgent_findById (get "salesAgent" leadDetails);
                           CLead_save doc])
                (now w) (S (next w)) in
    match snd (sem_Lead_save D doc (db w)) with
    | Ok saved => (w1, Ok saved)
    | Throw e =>
        (w1, Throw (if name_is e "ValidationError" then invalid_input e else e))
    end.
Proof.
  intros Hv Hans Hf2. apply answer_Ok in Hans. destruct Hans as [Hf Hsem].
  unfold createNewLead, SalesAgent_findById, Lead_save. run_op. rewrite Hv. simpl.
  rewrite (store_call_answers D _ _ w Hf). rewrite Hsem. simpl.
  unfold built_Lead in *.
  destruct (is_str (get "status" leadDetails) "Closed"); simpl;
    unfold store_call; simpl; rewrite Hf2; rewrite <- app_assoc; simpl;
    match goal with
    | |- context [snd ?x] => destruct (snd x) as [saved | e]
    end; try reflexivity;
    destruct (name_is e "ValidationError"); reflexivity.
Qed.



(** The Lead of the witness: the number 0 supplied as name is stored as the
    string "0", the string "5" as the number 5, the absent tags as the empty
    array and the absent status as New. *)
Lemma createNewLead_casts_and_defaults :
  exists w',
    createNewLead Reference.driver
      [("name", VNum 0); ("source", VStr "Referral");
       ("salesAgent", VStr "64B0C0FFEE0000000000A001"); ("timeToClose", VStr "5")]
      (Reference.world Reference.db1 1000)
    = (w', Ok (mkLead "000000000000000000000000" (VStr "0") (VStr "Referral")
                 (VStr "64b0c0ffee0000000000a001") (VStr "New") (VArr [])
                 (VNum 5) VUndef VUndef)).
Proof. eexists. vm_compute. reflexivity. Qed.

(** X7.  When the document Create Lead built violates the schema, the call
    fails with INVALID_INPUT whose message is "Invalid Input: " followed by
    the messages of the violated paths joined by ". ", no Lead is added to
    the collection, and POST /leads answers 400 with that message. *)
Theorem createNewLead_rejected_by_validation :
  forall (D : Driver) (leadDetails : Obj) (w : World) (agent : SalesAgent),
    isValid D (get "salesAgent" leadDetails) = true ->
    answer D (CSalesAgent_findById (get "salesAgent" leadDetails))
      (sem_SalesAgent_findById D (get "salesAgent" leadDetails)) (db w)
    = Ok (Some agent) ->
    fault D (CLead_save (built_Lead D leadDetails agent w)) (db w) = None ->
    lead_errors D (built_Lead D leadDetails agent w) <> [] ->
    snd (createNewLead D leadDetails w)
    = Throw (Tagged "INVALID_INPUT"
               ("Invalid Input: "
                  ++ join_with ". " (lead_errors D (built_Lead D leadDetails agent w))))
    /\ db (fst (createNewLead D leadDetails w)) = db w
    /\ snd (post_leads D leadDetails w)
       = reply 400
           (JError ("Invalid Input: "
                      ++ join_with ". "
                           (lead_errors D (built_Lead D leadDetails agent w)))).
Proof.
  intros D leadDetails w agent Hv Hans Hf2 Hval. unfold post_leads.
  rewrite (createNewLead_reaches_save D leadDetails w Hv Hans Hf2).
  unfold sem_Lead_save.
  destruct (lead_errors D (built_Lead D leadDetails agent w)) as [| m ms];
    [contradiction Hval; reflexivity |].
  simpl. repeat split.
Qed.

Lemma createNewLead_rejected_by_validation_witness :
  snd (createNewLead Reference.driver
         [("salesAgent", VStr "64b0c0ffee0000000000a001"); ("source", VStr "Fax")]
         (Reference.world Reference.db1 0))
  = Throw (Tagged "INVALID_INPUT"
             "Invalid Input: Path `name` is required.. `Fax` is not a valid enum value for path `source`.. Path `timeToClose` is required.")
  /\ db (fst (createNewLead Reference.driver
                [("salesAgent", VStr "64b0c0ffee0000000000a001"); ("source", VStr "Fax")]
                (Reference.world Reference.db1 0))) = Reference.db1
  /\ snd (post_leads Reference.driver
            [("salesAgent", VStr "64b0c0ffee0000000000a001"); ("source", VStr "Fax")]
            (Reference.world Reference.db1 0))
     = reply 400
         (JError "Invalid Input: Path `name` is required.. `Fax` is not a valid enum value for path `source`.. Path `timeToClose` is required.").
Proof.
  apply (@createNewLead_rejected_by_validation Reference.driver
           [("salesAgent", VStr "64b0c0ffee0000000000a001"); ("source", VStr "Fax")]
           (Reference.world Reference.db1 0) Reference.agent1).
  - reflexivity.
  - reflexivity.
  - reflexivity.
  - discriminate.
Defined.

(* ------------------------------------------------------------------ *)
(** ** Create Agent and Add Tag: how a failed [save] is classified *)

Lemma sem_SalesAgent_save_Throw (D : Driver) (doc : SalesAgent) (d : Db) (e : thrown) :
  snd (sem_SalesAgent_save D doc d) = Throw e -> fst (sem_SalesAgent_save D doc d) = d.
Proof.
  unfold sem_SalesAgent_save. destruct (agent_errors D doc); simpl.
  - destruct (existsb _ _); simpl; [reflexivity | discriminate].
  - reflexivity.
Qed.

Lemma sem_Tag_save_Throw (D : Driver) (doc : Tag) (d : Db) (e : thrown) :
  snd (sem_Tag_save D doc d) = Throw e -> fst (sem_Tag_save D doc d) = d.
Proof.
  unfold sem_Tag_save. destruct (tag_errors D doc); simpl.
  - destruct (existsb _ _); simpl; [reflexivity | discriminate].
  - reflexivity.
Qed.

(** X8.  When the [save] of Create Agent fails with an error [e] of the
    persistence layer: a ValidationError becomes INVALID_INPUT with the
    joined messages and POST /agents answers 400; any other error whose code
    is 11000, whatever its name, becomes DUPLICATE_KEY naming the supplied
    email and the route answers 409.  In both cases no agent is added. *)
Theorem createNewSalesAgent_classifies_store_error :
  forall (D : Driver) (agentData : Obj) (w : World) (e : LibErr),
    answer D
      (CSalesAgent_save
         (mkAgent (newId D (next w)) (get "name" agentData) (get "email" agentData)))
      (sem_SalesAgent_save D
         (mkAgent (newId D (next w)) (get "name" agentData) (get "email" agentData)))
      (db w)
    = Throw (Lib e) ->
    (e_name e = "ValidationError" ->
     snd (createNewSalesAgent D agentData w)
     = Throw (Tagged "INVALID_INPUT" ("Invalid Input: " ++ join_with ". " (e_errors e)))
     /\ snd (post_agents D agentData w)
        = reply 400 (JError ("Invalid Input: " ++ join_with ". " (e_errors e))))
    /\ (e_name e <> "ValidationError" ->
        e_code e = Some 11000 ->
        snd (createNewSalesAgent D agentData w)
        = Throw (Tagged "DUPLICATE_KEY"
                   ("Sales agent with email '" ++ js_to_string (get "email" agentData)
                      ++ "' already exists.'"))
        /\ snd (post_agents D agentData w)
           = reply 409
               (JError ("Sales agent with email '"
                          ++ js_to_string (get "email" agentData)
                          ++ "' already exists.'")))
    /\ agents (db (fst (createNewSalesAgent D agentData w))) = agents (db w).
Proof.
  intros D agentData w e Hans.
  assert (Hrun : createNewSalesAgent D agentData w =
                 (if name_is (Lib e) "ValidationError" then throw (invalid_input (Lib e))
                  else if code_is (Lib e) 11000 then
                         throw (Tagged "DUPLICATE_KEY"
                                  ("Sales agent with email '"
                                     ++ js_to_string (get "email" agentData)
                                     ++ "' already exists.'"))
                       else ret None)
                   (mkWorld (db w)
                      (log w ++ [CSalesAgent_save
                                   (mkAgent (newId D (next w)) (get "name" agentData)
                                      (get "email" agentData))])
                      (now w) (S (next w)))).
  { unfold createNewSalesAgent, SalesAgent_save. run_op. unfold store_call. simpl.
    unfold answer in Hans.
    destruct (fault D _ (db w)) as [e' |].
    - injection Hans as ->. reflexivity.
    - rewrite (sem_SalesAgent_save_Throw D _ _ Hans). rewrite Hans. reflexivity. }
  unfold post_agents. rewrite Hrun. simpl. split; [| split].
  - intros Hn. rewrite Hn. simpl. split; reflexivity.
  - intros Hn Hc. apply String.eqb_neq in Hn. rewrite Hn, Hc. simpl.
    split; reflexivity.
  - destruct (e_name e =? "ValidationError")%string; [reflexivity |].
    destruct (e_code e) as [c |]; [destruct (c =? 11000) |]; reflexivity.
Qed.

Lemma createNewSalesAgent_classifies_store_error_witness :
  (snd (createNewSalesAgent Reference.driver [("email", VStr "zed@example.com")]
          (Reference.world Reference.db1 0))
   = Throw (Tagged "INVALID_INPUT" "Invalid Input: Path `name` is required.")
   /\ snd (post_agents Reference.driver [("email", VStr "zed@example.com")]
             (Reference.world Reference.db1 0))
      = reply 400 (JError "Invalid Input: Path `name` is required."))
  /\ (snd (createNewSalesAgent Reference.driver
             [("name", VStr "Asha"); ("email", VStr "asha@example.com")]
             (Reference.world Reference.db1 0))
      = Throw (Tagged "DUPLICATE_KEY"
                 "Sales agent with email 'asha@example.com' already exists.'")
      /\ snd (post_agents Reference.driver
                [("name", VStr "Asha"); ("email", VStr "asha@example.com")]
                (Reference.world Reference.db1 0))
         = reply 409
             (JError "Sales agent with email 'asha@example.com' already exists.'")).
Proof.
  split.
  - apply (proj1 (@createNewSalesAgent_classifies_store_error Reference.driver
                    [("email", VStr "zed@example.com")]
                    (Reference.world Reference.db1 0)
                    (ValidationError ["Path `name` is required."]) eq_refl)).
    reflexivity.
  - apply (proj1 (proj2 (@createNewSalesAgent_classifies_store_error Reference.driver
                           [("name", VStr "Asha"); ("email", VStr "asha@example.com")]
                           (Reference.world Reference.db1 0)
                           DuplicateKeyError eq_refl))).
    + discriminate.
    + reflexivity.
Defined.

(** X9.  When the [save] of Add Tag fails with an error [e] of the
    persistence layer: a ValidationError becomes INVALID_INPUT (400); an
    error named MongoServerError with code 11000 becomes DUPLICATE_KEY naming
    the supplied tag (409); every other error, also one with code 11000
    under another name, is rethrown as it is and POST /tags answers 500 with
    the generic message.  In each case no tag is added. *)
Theorem addNewTag_classifies_store_error :
  forall (D : Driver) (tagObj : Obj) (w : World) (e : LibErr),
    answer D (CTag_save (mkTag (newId D (next w)) (get "name" tagObj)))
      (sem_Tag_save D (mkTag (newId D (next w)) (get "name" tagObj))) (db w)
    = Throw (Lib e) ->
    (e_name e = "ValidationError" ->
     snd (addNewTag D tagObj w)
     = Throw (Tagged "INVALID_INPUT" ("Invalid Input: " ++ join_with ". " (e_errors e)))
     /\ snd (post_tags D tagObj w)
        = reply 400 (JError ("Invalid Input: " ++ join_with ". " (e_errors e))))
    /\ (e_name e = "MongoServerError" ->
        e_code e = Some 11000 ->
        snd (addNewTag D tagObj w)
        = Throw (Tagged "DUPLICATE_KEY"
                   ("Tag with name '" ++ js_to_string (get "name" tagObj)
                      ++ "' already exists.'"))
        /\ snd (post_tags D tagObj w)
           = reply 409
               (JError ("Tag with name '" ++ js_to_string (get "name" tagObj)
                          ++ "' already exists.'")))
    /\ (e_name e <> "ValidationError" ->
        (e_name e <> "MongoServerError" \/ e_code e <> Some 11000) ->
        snd (addNewTag D tagObj w) = Throw (Lib e)
        /\ snd (post_tags D tagObj w) = reply 500 (JError "Server Error."))
    /\ tags (db (fst (addNewTag D tagObj w))) = tags (db w).
Proof.
  intros D tagObj w e Hans.
  assert (Hrun : addNewTag D tagObj w =
                 (if name_is (Lib e) "ValidationError" then throw (invalid_input (Lib e))
                  else if name_is (Lib e) "MongoServerError" && code_is (Lib e) 11000
                       then
                         throw (Tagged "DUPLICATE_KEY"
                                  ("Tag with name '" ++ js_to_string (get "name" tagObj)
                                     ++ "' already exists.'"))
                       else throw (Lib e))
                   (mkWorld (db w)
                      (log w ++ [CTag_save (mkTag (newId D (next w)) (get "name" tagObj))])
                      (now w) (S (next w)))).
  { unfold addNewTag, Tag_save. run_op. unfold store_call. simpl.
    unfold answer in Hans.
    destruct (fault D _ (db w)) as [e' |].
    - injection Hans as ->. reflexivity.
    - rewrite (sem_Tag_save_Throw D _ _ Hans). rewrite Hans. reflexivity. }
  unfold post_tags. rewrite Hrun. simpl. split; [| split; [| split]].
  - intros Hn. rewrite Hn. simpl. split; reflexivity.
  - intros Hn Hc. rewrite Hn, Hc. simpl. split; reflexivity.
  - intros Hn Hother. apply String.eqb_neq in Hn. rewrite Hn.
    assert (Hb : (e_name e =? "MongoServerError")%string
                 && match e_code e with Some c' => c' =? 11000 | None => false end
                 = false).
    { destruct Hother as [Hm | Hc].
      - apply String.eqb_neq in Hm. rewrite Hm. reflexivity.
      - apply andb_false_iff. right. destruct (e_code e) as [c |]; [| reflexivity].
        apply Z.eqb_neq. intros ->. apply Hc. reflexivity. }
    rewrite Hb. simpl. split; reflexivity.
  - destruct (e_name e =? "ValidationError")%string; [reflexivity |].
    destruct ((e_name e =? "MongoServerError")%string && _); reflexivity.
Qed.

Lemma addNewTag_classifies_store_error_witness :
  (snd (addNewTag Reference.driver [] (Reference.world Reference.db1 0))
   = Throw (Tagged "INVALID_INPUT" "Invalid Input: Path `name` is required.")
   /\ snd (post_tags Reference.driver [] (Reference.world Reference.db1 0))
      = reply 400 (JError "Invalid Input: Path `name` is required."))
  /\ (snd (addNewTag (Reference.failing DuplicateKeyError) [("name", VStr "hot")]
             (Reference.world Reference.db1 0))
      = Throw (Tagged "DUPLICATE_KEY" "Tag with name 'hot' already exists.'")
      /\ snd (post_tags (Reference.failing DuplicateKeyError) [("name", VStr "hot")]
                (Reference.world Reference.db1 0))
         = reply 409 (JError "Tag with name 'hot' already exists.'"))
  /\ (snd (addNewTag (Reference.failing (mkLibErr "MongoBulkWriteError" (Some 11000) "dup" []))
             [("name", VStr "hot")] (Reference.world Reference.db1 0))
      = Throw (Lib (mkLibErr "MongoBulkWriteError" (Some 11000) "dup" []))
      /\ snd (post_tags (Reference.failing (mkLibErr "MongoBulkWriteError" (Some 11000) "dup" []))
                [("name", VStr "hot")] (Reference.world Reference.db1 0))
         = reply 500 (JError "Server Error.")).
Proof.
  split; [| split].
  - apply (proj1 (@addNewTag_classifies_store_error Reference.driver []
                    (Reference.world Reference.db1 0)
                    (ValidationError ["Path `name` is required."]) eq_refl)).
    reflexivity.
  - apply (proj1 (proj2 (@addNewTag_classifies_store_error
                           (Reference.failing DuplicateKeyError) [("name", VStr "hot")]
                           (Reference.world Reference.db1 0) DuplicateKeyError eq_refl)));
      reflexivity.
  - apply (proj1 (proj2 (proj2 (@addNewTag_classifies_store_error
                                  (Reference.failing
                                     (mkLibErr "MongoBulkWriteError" (Some 11000) "dup" []))
                                  [("name", VStr "hot")]
                                  (Reference.world Reference.db1 0)
                                  (mkLibErr "MongoBulkWriteError" (Some 11000) "dup" [])
                                  eq_refl)))).
    + discriminate.
    + left. discriminate.
Defined.

(* ------------------------------------------------------------------ *)
(** ** The read operations and a failing store *)

Lemma query_then_rethrown {A} (D : Driver) (c : Call) (sem : Db -> Db * Result (list A))
    (m : string) (w : World) (e : LibErr) :
  fault D c (db w) = Some e ->
  snd (try_catch
         (found <- store_call D c sem ;;
          if negb (List.length found =? 0)%nat then ret found
          else throw (Tagged "NOT_FOUND" m))
         (fun error => throw error) w)
  = Throw (Lib e).
Proof.
  intros Hf. unfold try_catch, bind, store_call. rewrite Hf. reflexivity.
Qed.

(** X10.  The read operations classify nothing: when their query fails with
    an error [e] of the persistence layer, whatever its name, List Leads,
    List Agents, List Comments, Leads Closed Last Week, Pipeline Count and
    List Tags rethrow [e] as it is, and the five of their routes that have a
    [default] branch answer 500 with the generic message. *)
Theorem read_operations_rethrow_store_errors :
  forall (D : Driver) (w : World) (e : LibErr),
    (forall q : Obj,
        bad_salesAgent D truthy q || bad_status truthy q || bad_source truthy q = false ->
        fault D (CLead_find_populate q) (db w) = Some e ->
        snd (getAllLeads D q w) = Throw (Lib e))
    /\ (fault D CSalesAgent_find (db w) = Some e ->
        snd (getAllSalesAgents D w) = Throw (Lib e)
        /\ snd (get_agents D w) = reply 500 (JError "Server Error."))
    /\ (forall id : string,
           isValid D (VStr id) = true ->
           fault D (CComment_find_populate (VStr id)) (db w) = Some e ->
           snd (getAllComments D (VStr id) w) = Throw (Lib e)
           /\ snd (get_leads_id_comments D id w) = reply 500 (JError "Server Error."))
    /\ (fault D (CLead_find_closedAt_gte (sevenDaysBefore D (now w))) (db w) = Some e ->
        snd (leadsClosedLastWeek D w) = Throw (Lib e)
        /\ snd (get_report_last_week D w) = reply 500 (JError "Server Error."))
    /\ (fault D (CLead_find_status_ne "Closed") (db w) = Some e ->
        snd (getTotalLeadsInPipeline D w) = Throw (Lib e)
        /\ snd (get_report_pipeline D w) = reply 500 (JError "Server Error."))
    /\ (fault D CTag_find (db w) = Some e ->
        snd (getAllTags D w) = Throw (Lib e)
        /\ snd (get_tags D w) = reply 500 (JError "Server Error.")).
Proof.
  intros D w e. split; [| split; [| split; [| split; [| split]]]].
  - intros q Hbad Hf. revert Hbad.
    unfold bad_salesAgent, bad_status, bad_source, getAllLeads.
    generalize (truthy (get "salesAgent" q)), (isValid D (get "salesAgent" q)),
      (truthy (get "status" q)), (includes validStatuses (get "status" q)),
      (truthy (get "source" q)), (includes validSources (get "source" q)).
    intros [] [] [] [] [] [] Hbad; simpl in Hbad; try discriminate Hbad; simpl;
      change (negb ("Invalid input: " =? "Invalid input: ")%string) with false;
      cbv iota; unfold Lead_find_populate;
      exact (query_then_rethrown D _ _ _ w Hf).
  - intros Hf. unfold get_agents, getAllSalesAgents, SalesAgent_find.
    run_op. unfold store_call. rewrite Hf. split; reflexivity.
  - intros id Hv Hf. unfold get_leads_id_comments, getAllComments, Comment_find_populate.
    run_op. rewrite Hv. simpl. unfold store_call. rewrite Hf. split; reflexivity.
  - intros Hf. unfold get_report_last_week, leadsClosedLastWeek, Lead_find_closedAt_gte.
    run_op. unfold store_call. simpl. rewrite Hf. split; reflexivity.
  - intros Hf. unfold get_report_pipeline, getTotalLeadsInPipeline, Lead_find_status_ne.
    run_op. unfold store_call. rewrite Hf. split; reflexivity.
  - intros Hf. unfold get_tags, getAllTags, Tag_find.
    run_op. unfold store_call. rewrite Hf. split; reflexivity.
Qed.

Lemma read_operations_rethrow_store_errors_witness :
  snd (getAllLeads (Reference.failing (ValidationError ["x"])) [("status", VStr "New")]
         (Reference.world Reference.db1 0))
  = Throw (Lib (ValidationError ["x"]))
  /\ snd (get_agents (Reference.failing Reference.NetworkError)
            (Reference.world Reference.db1 0))
     = reply 500 (JError "Server Error.")
  /\ snd (get_leads_id_comments (Reference.failing Reference.NetworkError)
            "64b0c0ffee0000000000b001" (Reference.world Reference.db1 0))
     = reply 500 (JError "Server Error.")
  /\ snd (get_report_last_week (Reference.failing Reference.NetworkError)
            (Reference.world Reference.db1 0))
     = reply 500 (JError "Server Error.")
  /\ snd (get_report_pipeline (Reference.failing Reference.NetworkError)
            (Reference.world Reference.db1 0))
     = reply 500 (JError "Server Error.")
  /\ snd (get_tags (Reference.failing Reference.NetworkError)
            (Reference.world Reference.db1 0))
     = reply 500 (JError "Server Error.").
Proof.
  pose proof (read_operations_rethrow_store_errors
                (Reference.failing (ValidationError ["x"]))
                (Reference.world Reference.db1 0) (ValidationError ["x"]))
    as (HL & _).
  pose proof (read_operations_rethrow_store_errors
                (Reference.failing Reference.NetworkError)
                (Reference.world Reference.db1 0) Reference.NetworkError)
    as (_ & HA & HC & HW & HP & HT).
  split; [| split; [| split; [| split; [| split]]]].
  - apply (HL [("status", VStr "New")]); reflexivity.
  - apply HA. reflexivity.
  - apply (HC "64b0c0ffee0000000000b001"); reflexivity.
  - apply HW. reflexivity.
  - apply HP. reflexivity.
  - apply HT. reflexivity.
Defined.

(* ------------------------------------------------------------------ *)
(** ** Update Lead: the rejected updates *)

(** X11.  PUT /leads/:id with an id that is no valid identifier is answered
    400 "Invalid Lead ID." without any call to the store.  With a valid id
    of a Lead the store finds, an update that violates the schema fails with
    INVALID_INPUT carrying the joined messages, is answered 400, and leaves
    the store as it was. *)
Theorem updateLead_rejections :
  forall (D : Driver) (id : string) (dataToUpdate : Obj) (w : World),
    (isValid D (VStr id) = false ->
     updateLead D (VStr id) dataToUpdate w =
       (w, Throw (Tagged "INVALID_ID_FORMAT" "Invalid Lead ID."))
     /\ put_leads_id D id dataToUpdate w = (w, reply 400 (JError "Invalid Lead ID.")))
    /\ (forall prior : Lead,
           isValid D (VStr id) = true ->
           answer D (CLead_findById (VStr id)) (sem_Lead_findById D (VStr id)) (db w)
           = Ok (Some prior) ->
           fault D (CLead_findByIdAndUpdate (VStr id) dataToUpdate) (db w) = None ->
           lead_update_errors D dataToUpdate <> [] ->
           snd (updateLead D (VStr id) dataToUpdate w)
           = Throw (Tagged "INVALID_INPUT"
                      ("Invalid Input: "
                         ++ join_with ". " (lead_update_errors D dataToUpdate)))
           /\ snd (put_leads_id D id dataToUpdate w)
              = reply 400
                  (JError ("Invalid Input: "
                             ++ join_with ". " (lead_update_errors D dataToUpdate)))
           /\ db (fst (updateLead D (VStr id) dataToUpdate w)) = db w).
Proof.
  intros D id data w. split.
  - intros Hv. unfold put_leads_id, updateLead. run_op. rewrite Hv.
    split; reflexivity.
  - intros prior Hv Hans Hf2 Hval. apply answer_Ok in Hans.
    destruct Hans as [Hf Hsem]. simpl in Hsem. unfold by_id in Hsem.
    destruct (castId D (VStr id)) as [i |] eqn:Hcast; [| discriminate Hsem].
    injection Hsem as Hfind.
    unfold put_leads_id, updateLead, Lead_findById, Lead_findByIdAndUpdate. run_op.
    rewrite Hv. simpl. rewrite (store_call_answers D _ _ w Hf). simpl.
    unfold by_id. rewrite Hcast, Hfind. simpl.
    unfold store_call. simpl. rewrite Hf2.
    unfold sem_Lead_findByIdAndUpdate. rewrite Hcast.
    destruct (lead_update_errors D data) as [| m ms];
      [contradiction Hval; reflexivity |].
    simpl. repeat split.
Qed.

Lemma updateLead_rejections_witness :
  (updateLead Reference.driver (VStr "7") [("status", VStr "Closed")]
     (Reference.world Reference.db1 0)
   = (Reference.world Reference.db1 0,
      Throw (Tagged "INVALID_ID_FORMAT" "Invalid Lead ID."))
   /\ put_leads_id Reference.driver "7" [("status", VStr "Closed")]
        (Reference.world Reference.db1 0)
      = (Reference.world Reference.db1 0, reply 400 (JError "Invalid Lead ID.")))
  /\ (snd (updateLead Reference.driver (VStr "64b0c0ffee0000000000b001")
             [("status", VStr "Won")] (Reference.world Reference.db1 0))
      = Throw (Tagged "INVALID_INPUT"
                 "Invalid Input: `Won` is not a valid enum value for path `status`.")
      /\ snd (put_leads_id Reference.driver "64b0c0ffee0000000000b001"
                [("status", VStr "Won")] (Reference.world Reference.db1 0))
         = reply 400
             (JError "Invalid Input: `Won` is not a valid enum value for path `status`.")
      /\ db (fst (updateLead Reference.driver (VStr "64b0c0ffee0000000000b001")
                    [("status", VStr "Won")] (Reference.world Reference.db1 0)))
         = Reference.db1).
Proof.
  split.
  - apply (proj1 (updateLead_rejections Reference.driver "7"
                    [("status", VStr "Closed")] (Reference.world Reference.db1 0))).
    reflexivity.
  - apply (proj2 (updateLead_rejections Reference.driver "64b0c0ffee0000000000b001"
                    [("status", VStr "Won")] (Reference.world Reference.db1 0))
             Reference.lead1).
    + reflexivity.
    + reflexivity.
    + reflexivity.
    + discriminate.
Defined.

(* ------------------------------------------------------------------ *)
(** ** How the operations compose *)

Lemma populate_author_agents (D : Driver) (d1 d2 : Db) (c : Comment) :
  agents d1 = agents d2 -> populate_author D d1 c = populate_author D d2 c.
Proof.
  intros H. unfold populate_author. rewrite H. reflexivity.
Qed.

(** X12.  A comment added to a Lead is listed for that Lead.  Where the
    persistence layer raises no error, after an Add Comment that passes its
    checks and whose document the store accepts, List Comments for the same
    leadId succeeds and returns the comments the Lead had before, in their
    order, followed by the new one with its author resolved. *)
Theorem addComments_then_getAllComments :
  forall (D : Driver) (leadId : jsval) (commentData : Obj) (w : World)
         (lead : Lead) (i : Id),
    no_faults D ->
    isValid D leadId = true ->
    isValid D (get "author" commentData) = true ->
    castId D leadId = Some i ->
    find (fun a => (lead_id a =? i)%string) (leads (db w)) = Some lead ->
    comment_errors D (built_Comment D leadId commentData w) = [] ->
    exists w',
      addComments D leadId commentData w
      = (w', Ok (built_Comment D leadId commentData w))
      /\ snd (getAllComments D leadId w')
         = Ok (map (populate_author D (db w))
                 (filter (fun c => same_ref D i (comment_lead c)) (comments (db w)))
               ++ [populate_author D (db w) (built_Comment D leadId commentData w)])%list.
Proof.
  intros D leadId commentData w lead i Hnf Hl Ha Hcast Hfind Hval.
  unfold addComments, Lead_findById, Comment_save. run_op. rewrite Hl, Ha. simpl.
  rewrite (store_call_answers D _ _ w (Hnf _ _)). simpl.
  unfold by_id. rewrite Hcast, Hfind. simpl.
  unfold store_call at 1. simpl. rewrite (Hnf _ _).
  unfold built_Comment in *. unfold sem_Comment_save. rewrite Hval. simpl.
  eexists. split; [reflexivity |].
  unfold getAllComments, Comment_find_populate. run_op. rewrite Hl. simpl.
  unfold store_call. simpl. rewrite (Hnf _ _).
  unfold sem_Comment_find_populate. rewrite Hcast. simpl.
  rewrite filter_app. simpl.
  assert (Hsame : same_ref D i leadId = true).
  { unfold same_ref. rewrite Hcast. apply String.eqb_refl. }
  rewrite Hsame. rewrite map_app. simpl.
  match goal with
  | |- context [map (populate_author D ?d) ?l] =>
      rewrite (@map_ext _ _ (populate_author D d) (populate_author D (db w))
                 (fun c => populate_author_agents D d (db w) c eq_refl) l)
  end.
  match goal with
  | |- context [populate_author D ?d (new_Comment ?a ?b ?c ?e ?f)] =>
      rewrite (populate_author_agents D d (db w) (new_Comment a b c e f) eq_refl)
  end.
  destruct (map (populate_author D (db w))
              (filter (fun c => same_ref D i (comment_lead c)) (comments (db w))));
    reflexivity.
Qed.

Lemma addComments_then_getAllComments_witness :
  exists w',
    addComments Reference.driver (VStr "64b0c0ffee0000000000b001")
      [("commentText", VStr "call back");
       ("author", VStr "64b0c0ffee0000000000a001")]
      (Reference.world Reference.db1 7)
    = (w', Ok (mkComment "000000000000000000000000"
                 (VStr "64b0c0ffee0000000000b001") (VStr "call back")
                 (VStr "64b0c0ffee0000000000a001") 7))
    /\ snd (getAllComments Reference.driver (VStr "64b0c0ffee0000000000b001") w')
       = Ok [mkCommentView
               (mkComment "000000000000000000000000"
                  (VStr "64b0c0ffee0000000000b001") (VStr "call back")
                  (VStr "64b0c0ffee0000000000a001") 7)
               (Some Reference.agent1)].
Proof.
  apply (@addComments_then_getAllComments Reference.driver
           (VStr "64b0c0ffee0000000000b001")
           [("commentText", VStr "call back");
            ("author", VStr "64b0c0ffee0000000000a001")]
           (Reference.world Reference.db1 7) Reference.lead1
           "64b0c0ffee0000000000b001").
  - intros c d. reflexivity.
  - reflexivity.
  - reflexivity.
  - reflexivity.
  - reflexivity.
  - reflexivity.
Defined.

(** X13.  A Lead created as Closed is reported.  Where the persistence layer
    raises no error, after a Create Lead with status "Closed" that the store
    accepts, Leads Closed Last Week run at the same instant succeeds and its
    result contains the new Lead, whose closedAt is that instant. *)
Theorem createNewLead_Closed_is_reported :
  forall (D : Driver) (leadDetails : Obj) (w : World) (agent : SalesAgent),
    no_faults D ->
    isValid D (get "salesAgent" leadDetails) = true ->
    by_id D agent_id (get "salesAgent" leadDetails) (agents (db w)) = Ok (Some agent) ->
    get "status" leadDetails = VStr "Closed" ->
    lead_errors D (built_Lead D leadDetails agent w) = [] ->
    exists w' l rs,
      createNewLead D leadDetails w = (w', Ok l)
      /\ lead_closedAt l = VNum (now w)
      /\ snd (leadsClosedLastWeek D w') = Ok rs
      /\ In l rs.
Proof.
  intros D leadDetails w agent Hnf Hv Hfind Hst Hval.
  assert (Hans : answer D (CSalesAgent_findById (get "salesAgent" leadDetails))
                   (sem_SalesAgent_findById D (get "salesAgent" leadDetails)) (db w)
                 = Ok (Some agent)).
  { unfold answer. rewrite (Hnf _ _). exact Hfind. }
  rewrite (createNewLead_reaches_save D leadDetails w Hv Hans (Hnf _ _)).
  unfold sem_Lead_save. rewrite Hval. simpl.
  set (l := built_Lead D leadDetails agent w).
  assert (Hclosed : lead_closedAt l = VNum (now w)).
  { unfold l, built_Lead. rewrite Hst. reflexivity. }
  assert (Hin : In l (filter (closedAt_gte (sevenDaysBefore D (now w)))
                        (leads (db w) ++ [l]))).
  { apply filter_In. split.
    - apply in_or_app. right. left. reflexivity.
    - unfold closedAt_gte. rewrite Hclosed. apply Z.leb_le.
      apply sevenDaysBefore_le. }
  eexists. exists l.
  exists (filter (closedAt_gte (sevenDaysBefore D (now w))) (leads (db w) ++ [l])).
  split; [reflexivity |]. split; [exact Hclosed |]. split; [| exact Hin].
  unfold leadsClosedLastWeek, Lead_find_closedAt_gte. run_op.
  unfold store_call. simpl. rewrite (Hnf _ _). simpl.
  destruct (filter (closedAt_gte (sevenDaysBefore D (now w))) (leads (db w) ++ [l]))
    as [| x rest].
  - contradiction Hin.
  - reflexivity.
Qed.

Lemma createNewLead_Closed_is_reported_witness :
  exists w' l rs,
    createNewLead Reference.driver
      [("name", VStr "Initech"); ("source", VStr "Referral");
       ("salesAgent", VStr "64b0c0ffee0000000000a001");
       ("status", VStr "Closed"); ("timeToClose", VNum 5)]
      (Reference.world Reference.db1 1700000000000)
    = (w', Ok l)
    /\ lead_closedAt l = VNum 1700000000000
    /\ snd (leadsClosedLastWeek Reference.driver w') = Ok rs
    /\ In l rs.
Proof.
  apply (@createNewLead_Closed_is_reported Reference.driver
           [("name", VStr "Initech"); ("source", VStr "Referral");
            ("salesAgent", VStr "64b0c0ffee0000000000a001");
            ("status", VStr "Closed"); ("timeToClose", VNum 5)]
           (Reference.world Reference.db1 1700000000000) Reference.agent1).
  - intros c d. reflexivity.
  - reflexivity.
  - reflexivity.
  - reflexivity.
  - reflexivity.
Defined.

(* ------------------------------------------------------------------ *)
(** ** What the routes answer *)








(** X15.  A request rejected by a check on the request itself is answered
    400 with the message of that check and makes no call to the store: POST
    /leads with an invalid salesAgent; GET /leads with a violated filter;
    DELETE /leads/:id, POST and GET /leads/:id/comments with an invalid id;
    POST /leads/:id/comments with a valid id and an invalid author. *)
Theorem rejected_requests_are_answered_400 :
  forall (D : Driver) (w : World),
    (forall body : Obj,
        isValid D (get "salesAgent" body) = false ->
        post_leads D body w = (w, reply 400 (JError "Invalid ID Format.")))
    /\ (forall q : Obj,
           bad_salesAgent D truthy q || bad_status truthy q || bad_source truthy q = true ->
           get_leads D q w
           = (w, reply 400
                   (JError (filter_messages (bad_salesAgent D truthy q)
                              (bad_status truthy q) (bad_source truthy q)))))
    /\ (forall (id : string) (body : Obj),
           isValid D (VStr id) = false ->
           delete_leads_id D id w = (w, reply 400 (JError "Invalid Lead ID."))
           /\ post_leads_id_comments D id body w
              = (w, reply 400 (JError "Invalid Lead ID."))
           /\ get_leads_id_comments D id w
              = (w, reply 400 (JError "Invalid Lead ID Format.")))
    /\ (forall (id : string) (body : Obj),
           isValid D (VStr id) = true ->
           isValid D (get "author" body) = false ->
           post_leads_id_comments D id body w
           = (w, reply 400 (JError "Invalid Sales Agent ID."))).
Proof.
  intros D w. split; [| split; [| split]].
  - intros body Hv. unfold post_leads, createNewLead. run_op. rewrite Hv.
    reflexivity.
  - intros q.
    unfold bad_salesAgent, bad_status, bad_source, get_leads, getAllLeads,
      try_catch, throw.
    generalize (truthy (get "salesAgent" q)), (isValid D (get "salesAgent" q)),
      (truthy (get "status" q)), (includes validStatuses (get "status" q)),
      (truthy (get "source" q)), (includes validSources (get "source" q)).
    intros [] [] [] [] [] []; simpl; intros H; try discriminate H; reflexivity.
  - intros id body Hv.
    unfold delete_leads_id, deleteLead, post_leads_id_comments, addComments,
      get_leads_id_comments, getAllComments.
    run_op. rewrite Hv. repeat split.
  - intros id body Hl Ha. unfold post_leads_id_comments, addComments. run_op.
    rewrite Hl, Ha. reflexivity.
Qed.

Lemma rejected_requests_are_answered_400_witness :
  post_leads Reference.driver [("name", VStr "Acme"); ("salesAgent", VStr "not-an-id")]
    (Reference.world Reference.db1 0)
  = (Reference.world Reference.db1 0, reply 400 (JError "Invalid ID Format."))
  /\ get_leads Reference.driver [("status", VStr "Bogus")]
       (Reference.world Reference.db1 0)
     = (Reference.world Reference.db1 0,
        reply 400 (JError ("Invalid input: " ++ msg_status)))
  /\ delete_leads_id Reference.driver "42" (Reference.world Reference.db1 0)
     = (Reference.world Reference.db1 0, reply 400 (JError "Invalid Lead ID."))
  /\ post_leads_id_comments Reference.driver "64b0c0ffee0000000000b001"
       [("commentText", VStr "hi"); ("author", VStr "me")]
       (Reference.world Reference.db1 0)
     = (Reference.world Reference.db1 0, reply 400 (JError "Invalid Sales Agent ID.")).
Proof.
  pose proof (rejected_requests_are_answered_400 Reference.driver
                (Reference.world Reference.db1 0)) as (HP & HG & HI & HA).
  split; [| split; [| split]].
  - apply HP. reflexivity.
  - apply (HG [("status", VStr "Bogus")]). reflexivity.
  - apply (HI "42" []). reflexivity.
  - apply HA; reflexivity.
Defined.

(** X16.  On the five routes that list, once the store has answered the
    query with the result set [rs], the response is 404 with the route's own
    message when [rs] is empty and 200 with [rs] as its body otherwise. *)
Theorem list_routes_answer_404_or_the_result_set :
  forall (D : Driver) (w : World),
    (forall (q : Obj) (rs : list LeadView),
        bad_salesAgent D truthy q || bad_status truthy q || bad_source truthy q = false ->
        answer D (CLead_find_populate q) (sem_Lead_find_populate D q) (db w) = Ok rs ->
        snd (get_leads D q w)
        = match rs with
          | [] => reply 404 (JError "Lead Data Not Found.")
          | _ :: _ => reply 200 (JLeadViews rs)
          end)
    /\ (forall rs : list SalesAgent,
           answer D CSalesAgent_find sem_SalesAgent_find (db w) = Ok rs ->
           snd (get_agents D w)
           = match rs with
             | [] => reply 404 (JError "Sales Agents Not Found.")
             | _ :: _ => reply 200 (JAgents rs)
             end)
    /\ (forall (id : string) (rs : list CommentView),
           isValid D (VStr id) = true ->
           answer D (CComment_find_populate (VStr id))
             (sem_Comment_find_populate D (VStr id)) (db w) = Ok rs ->
           snd (get_leads_id_comments D id w)
           = match rs with
             | [] => reply 404 (JError ("Comments for lead ID '" ++ id ++ "' not found."))
             | _ :: _ => reply 200 (JCommentViews rs)
             end)
    /\ (forall rs : list Tag,
           answer D CTag_find sem_Tag_find (db w) = Ok rs ->
           snd (get_tags D w)
           = match rs with
             | [] => reply 404 (JError "No Tags Found.")
             | _ :: _ => reply 200 (JTags rs)
             end)
    /\ (forall rs : list Lead,
           answer D (CLead_find_closedAt_gte (sevenDaysBefore D (now w)))
             (sem_Lead_find_closedAt_gte (sevenDaysBefore D (now w))) (db w) = Ok rs ->
           snd (get_report_last_week D w)
           = match rs with
             | [] => reply 404 (JError "No Closed Leads for Last Week found.")
             | _ :: _ => reply 200 (JLeads rs)
             end).
Proof.
  intros D w. split; [| split; [| split; [| split]]].
  - intros q rs Hbad Hans. pose proof (getAllLeads_listed D w q Hbad Hans) as H.
    unfold get_leads. destruct (getAllLeads D q w) as [w' r]. simpl in H. subst r.
    destruct rs; reflexivity.
  - intros rs Hans. pose proof (getAllSalesAgents_listed D w Hans) as H.
    unfold get_agents. destruct (getAllSalesAgents D w) as [w' r]. simpl in H.
    subst r. destruct rs; reflexivity.
  - intros id rs Hv Hans. pose proof (getAllComments_listed D w (VStr id) Hv Hans) as H.
    unfold get_leads_id_comments. destruct (getAllComments D (VStr id) w) as [w' r].
    simpl in H. subst r. destruct rs; reflexivity.
  - intros rs Hans. pose proof (getAllTags_listed D w Hans) as H.
    unfold get_tags. destruct (getAllTags D w) as [w' r]. simpl in H. subst r.
    destruct rs; reflexivity.
  - intros rs Hans. apply answer_Ok in Hans. destruct Hans as [Hf Hsem].
    unfold get_report_last_week, leadsClosedLastWeek, Lead_find_closedAt_gte.
    run_op. rewrite (store_call_answers D _ _ w Hf). simpl in *.
    injection Hsem as Hsem. rewrite Hsem. destruct rs; reflexivity.
Qed.

Lemma list_routes_answer_404_or_the_result_set_witness :
  snd (get_leads Reference.driver [("source", VStr "Email")]
         (Reference.world Reference.db2 0))
  = reply 200 (JLeadViews [mkLeadView Reference.lead2
                             (Some ("64b0c0ffee0000000000a001", VStr "Asha"))])
  /\ snd (get_agents Reference.driver (Reference.world Reference.db2 0))
     = reply 200 (JAgents [Reference.agent1])
  /\ snd (get_leads_id_comments Reference.driver "64b0c0ffee0000000000b001"
            (Reference.world Reference.db2 0))
     = reply 404 (JError "Comments for lead ID '64b0c0ffee0000000000b001' not found.")
  /\ snd (get_tags Reference.driver (Reference.world Reference.db2 0))
     = reply 404 (JError "No Tags Found.")
  /\ snd (get_report_last_week Reference.driver
            (Reference.world Reference.db2 2000000000500))
     = reply 200 (JLeads [Reference.lead2]).
Proof.
  pose proof (list_routes_answer_404_or_the_result_set Reference.driver
                (Reference.world Reference.db2 0)) as (HL & HA & HC & HT & _).
  pose proof (list_routes_answer_404_or_the_result_set Reference.driver
                (Reference.world Reference.db2 2000000000500)) as (_ & _ & _ & _ & HW).
  split; [| split; [| split; [| split]]].
  - apply (HL [("source", VStr "Email")]
              [mkLeadView Reference.lead2
                 (Some ("64b0c0ffee0000000000a001", VStr "Asha"))]);
      reflexivity.
  - apply (HA [Reference.agent1]). reflexivity.
  - apply (HC "64b0c0ffee0000000000b001" []); reflexivity.
  - apply (HT []). reflexivity.
  - apply (HW [Reference.lead2]). reflexivity.
Defined.

(** X17.  POST /leads leaves a request unanswered in one case only: Create
    Lead succeeded, so the Lead is persisted, and the name of the persisted
    Lead is falsy.  Every failure of Create Lead is answered. *)
Theorem post_leads_unanswered_iff_falsy_name :
  forall (D : Driver) (body : Obj) (w : World),
    snd (post_leads D body w) = None
    <-> exists w' l,
          createNewLead D body w = (w', Ok l) /\ truthy (lead_name l) = false.
Proof.
  intros D body w. unfold post_leads.
  destruct (createNewLead D body w) as [w' [l | e]]; simpl.
  - split.
    + intros H. exists w', l. split; [reflexivity |].
      destruct (truthy (lead_name l)); [discriminate H | reflexivity].
    + intros (w1 & l1 & Heq & Hname). injection Heq as <- <-.
      rewrite Hname. reflexivity.
  - split.
    + intros H. exfalso.
      destruct (type_is e "INVALID_ID_FORMAT"); [discriminate H |].
      destruct (type_is e "NOT_FOUND"); [discriminate H |].
      destruct (type_is e "INVALID_INPUT"); discriminate H.
    + intros (w1 & l1 & Heq & _). discriminate Heq.
Qed.

(* ------------------------------------------------------------------ *)
(** ** List Leads queries with the query as it came *)

(** X18.  When no filter is in violation, List Leads makes exactly one call
    to the store, and that call carries the request's query unchanged, with
    every property it has, also those List Leads does not look at; the store
    is left as it was. *)
Theorem getAllLeads_forwards_the_raw_query :
  forall (D : Driver) (q : Obj) (w : World),
    bad_salesAgent D truthy q || bad_status truthy q || bad_source truthy q = false ->
    log (fst (getAllLeads D q w)) = (log w ++ [CLead_find_populate q])%list
    /\ db (fst (getAllLeads D q w)) = db w.
Proof.
  intros D q w.
  unfold bad_salesAgent, bad_status, bad_source, getAllLeads.
  generalize (truthy (get "salesAgent" q)), (isValid D (get "salesAgent" q)),
    (truthy (get "status" q)), (includes validStatuses (get "status" q)),
    (truthy (get "source" q)), (includes validSources (get "source" q)).
  intros [] [] [] [] [] [] Hbad; simpl in Hbad; try discriminate Hbad; simpl;
    change (negb ("Invalid input: " =? "Invalid input: ")%string) with false;
    cbv iota; unfold Lead_find_populate, store_call, sem_Lead_find_populate;
    run_op; repeat (case_step; simpl); split; reflexivity.
Qed.

Lemma getAllLeads_forwards_the_raw_query_witness :
  log (fst (getAllLeads Reference.driver
              [("status", VStr "New"); ("tags", VStr "vip"); ("page", VStr "2")]
              (Reference.world Reference.db1 0)))
  = [CLead_find_populate
       [("status", VStr "New"); ("tags", VStr "vip"); ("page", VStr "2")]]
  /\ db (fst (getAllLeads Reference.driver
                [("status", VStr "New"); ("tags", VStr "vip"); ("page", VStr "2")]
                (Reference.world Reference.db1 0)))
     = Reference.db1.
Proof.
  apply (getAllLeads_forwards_the_raw_query Reference.driver
           [("status", VStr "New"); ("tags", VStr "vip"); ("page", VStr "2")]
           (Reference.world Reference.db1 0)).
  reflexivity.
Defined.

(* ------------------------------------------------------------------ *)
(** ** A failed write changes nothing *)

Lemma createNewLead_failure_keeps_db (D : Driver) (leadDetails : Obj) (w : World)
    (e : thrown) :
  snd (createNewLead D leadDetails w) = Throw e ->
  db (fst (createNewLead D leadDetails w)) = db w.
Proof.
  unfold createNewLead, SalesAgent_findById, Lead_save, store_call,
    sem_SalesAgent_findById, sem_Lead_save, by_id.
  run_op. repeat (case_step; simpl); intros H;
    first [reflexivity | discriminate H].
Qed.

Lemma updateLead_failure_keeps_db (D : Driver) (leadId : jsval) (data : Obj)
    (w : World) (e : thrown) :
  snd (updateLead D leadId data w) = Throw e ->
  db (fst (updateLead D leadId data w)) = db w.
Proof.
  unfold updateLead, Lead_findById, Lead_findByIdAndUpdate, store_call,
    sem_Lead_findById, sem_Lead_findByIdAndUpdate, by_id.
  run_op. repeat (case_step; simpl); intros H;
    first [reflexivity | discriminate H].
Qed.

Lemma deleteLead_failure_keeps_db (D : Driver) (leadId : jsval) (w : World)
    (e : thrown) :
  snd (deleteLead D leadId w) = Throw e ->
  db (fst (deleteLead D leadId w)) = db w.
Proof.
  unfold deleteLead, Lead_findById, Lead_findByIdAndDelete, store_call,
    sem_Lead_findById, sem_Lead_findByIdAndDelete, by_id.
  run_op. repeat (case_step; simpl); intros H;
    first [reflexivity | discriminate H].
Qed.

Lemma addComments_failure_keeps_db (D : Driver) (leadId : jsval) (commentData : Obj)
    (w : World) (e : thrown) :
  snd (addComments D leadId commentData w) = Throw e ->
  db (fst (addComments D leadId commentData w)) = db w.
Proof.
  unfold addComments, Lead_findById, Comment_save, store_call,
    sem_Lead_findById, sem_Comment_save, by_id.
  run_op. repeat (case_step; simpl); intros H;
    first [reflexivity | discriminate H].
Qed.

Lemma addNewTag_failure_keeps_db (D : Driver) (tagObj : Obj) (w : World)
    (e : thrown) :
  snd (addNewTag D tagObj w) = Throw e ->
  db (fst (addNewTag D tagObj w)) = db w.
Proof.
  unfold addNewTag, Tag_save, store_call, sem_Tag_save.
  run_op. repeat (case_step; simpl); intros H;
    first [reflexivity | discriminate H].
Qed.

(** X19.  Create Lead, Update Lead, Delete Lead, Add Comment and Add Tag
    write last: whenever one of them fails, with a failure of its own or
    with one of the persistence layer, the four collections are as they were
    before the call. *)
Theorem failed_writes_leave_the_store_unchanged :
  forall (D : Driver) (w : World) (id : jsval) (body : Obj) (e : thrown),
    (snd (createNewLead D body w) = Throw e ->
     db (fst (createNewLead D body w)) = db w)
    /\ (snd (updateLead D id body w) = Throw e ->
        db (fst (updateLead D id body w)) = db w)
    /\ (snd (deleteLead D id w) = Throw e ->
        db (fst (deleteLead D id w)) = db w)
    /\ (snd (addComments D id body w) = Throw e ->
        db (fst (addComments D id body w)) = db w)
    /\ (snd (addNewTag D body w) = Throw e ->
        db (fst (addNewTag D body w)) = db w).
Proof.
  intros D w id body e.
  split; [apply createNewLead_failure_keeps_db |].
  split; [apply updateLead_failure_keeps_db |].
  split; [apply deleteLead_failure_keeps_db |].
  split; [apply addComments_failure_keeps_db | apply addNewTag_failure_keeps_db].
Qed.

Lemma failed_writes_leave_the_store_unchanged_witness :
  db (fst (createNewLead Reference.driver
             [("salesAgent", VStr "64b0c0ffee0000000000a001"); ("source", VStr "Fax")]
             (Reference.world Reference.db1 0))) = Reference.db1
  /\ db (fst (updateLead Reference.driver (VStr "64b0c0ffee0000000000b001")
                [("status", VStr "Won")] (Reference.world Reference.db1 0)))
     = Reference.db1
  /\ db (fst (deleteLead (Reference.failing Reference.NetworkError)
                (VStr "64b0c0ffee0000000000b001") (Reference.world Reference.db1 0)))
     = Reference.db1
  /\ db (fst (addComments Reference.driver (VStr "64b0c0ffee0000000000b001")
                [("author", VStr "64b0c0ffee0000000000a001")]
                (Reference.world Reference.db1 0)))
     = Reference.db1
  /\ db (fst (addNewTag Reference.driver [] (Reference.world Reference.db1 0)))
     = Reference.db1.
Proof.
  split; [| split; [| split; [| split]]].
  - eapply (proj1 (failed_writes_leave_the_store_unchanged Reference.driver
                     (Reference.world Reference.db1 0) VUndef
                     [("salesAgent", VStr "64b0c0ffee0000000000a001");
                      ("source", VStr "Fax")] _)).
    reflexivity.
  - eapply (proj1 (proj2 (failed_writes_leave_the_store_unchanged Reference.driver
                            (Reference.world Reference.db1 0)
                            (VStr "64b0c0ffee0000000000b001")
                            [("status", VStr "Won")] _))).
    reflexivity.
  - eapply (proj1 (proj2 (proj2 (failed_writes_leave_the_store_unchanged
                                   (Reference.failing Reference.NetworkError)
                                   (Reference.world Reference.db1 0)
                                   (VStr "64b0c0ffee0000000000b001") [] _)))).
    reflexivity.
  - eapply (proj1 (proj2 (proj2 (proj2 (failed_writes_leave_the_store_unchanged
                                          Reference.driver
                                          (Reference.world Reference.db1 0)
                                          (VStr "64b0c0ffee0000000000b001")
                                          [("author", VStr "64b0c0ffee0000000000a001")]
                                          _))))).
    reflexivity.
  - eapply (proj2 (proj2 (proj2 (proj2 (failed_writes_leave_the_store_unchanged
                                          Reference.driver
                                          (Reference.world Reference.db1 0)
                                          VUndef [] _))))).
    reflexivity.
Defined.
